(** * Django blog: request authorization, post store and listing

    A shallow embedding of [blog/views.py] (the class-based views for
    posts and the two function views) together with the part of the
    users application that the specification describes (registration
    and profile-image update).

    The views are declarative: each one is a class that lists mixins and
    a generic view and overrides a few hooks.  The hooks ([form_valid],
    [test_func], [get_queryset]) and class attributes ([ordering],
    [paginate_by], [fields], [success_url]) are embedded from the source;
    the inherited behaviour (the access mixins' [dispatch], the method
    dispatch of [View], the form-processing views and the paginator) is
    written out once in [Module Django] and shared by all views. *)

From Stdlib Require Import ZArith Ascii String List Lia.
From stdpp Require Import base option list gmap fin_maps sorting strings.

Local Open Scope string_scope.

(** ** Requests, actors and rows *)

Inductive Method := GET | HEAD | POST | PUT | DELETE | OPTIONS | PATCH | TRACE.

(** [django.contrib.auth.models.User]; equality of model instances is
    equality of primary keys. *)
Record User := { user_pk : nat; username : string }.

(** [request.user]: an [AnonymousUser] or a logged-in [User]. *)
Inductive Actor := AnonymousUser | LoggedIn (u : User).

(** A stored row of [blog.models.Post], with the fields the views name
    ([title] and [content] in [fields], [date_posted] in [ordering],
    [author] in [form_valid] and [test_func]).  The primary key is the
    key of the table, the author is the foreign key [author_id]. *)
Record Post := {
  title : string;
  content : string;
  date_posted : Z;
  author : nat
}.

(** The submitted form data for [fields = ['title', 'content']]. *)
Record PostForm := { form_title : string; form_content : string }.

(** The [page] query parameter as [ListView.paginate_queryset] sees it:
    absent (or empty), an integer, the word [last], or anything else. *)
Inductive PageArg := PageAbsent | PageInt (n : Z) | PageLast | PageMalformed.

Record Request := {
  method : Method;
  user : Actor;
  POST_data : PostForm;
  page : PageArg
}.

(** The database: the post table keyed by primary key, and the users. *)
Record DB := { posts : gmap nat Post; users : list User }.

(** ** Responses *)

Inductive Target :=
| LoginUrl                  (* settings.LOGIN_URL, with ?next= *)
| AbsoluteUrl (pk : nat)    (* Post.get_absolute_url() *)
| Path (p : string).

Inductive Context :=
| PostList (object_list : list (nat * Post)) (page_obj : option (Z * Z))
| PostDetail (pk : nat) (object : Post)
| PostFormPage (instance : option (nat * Post))
| PostFormErrors (pk : option nat) (bound : PostForm)
| PostConfirmDelete (pk : nat) (object : Post)
| About.

Inductive Response :=
| HttpResponse (ctx : Context)
| HttpResponseAllow
| HttpResponseRedirect (to : Target)
| HttpResponseForbidden
| HttpResponseNotFound
| HttpResponseNotAllowed
| HttpResponseServerError.

Definition status_code (r : Response) : Z :=
  match r with
  | HttpResponse _ => 200
  | HttpResponseAllow => 200
  | HttpResponseRedirect _ => 302
  | HttpResponseForbidden => 403
  | HttpResponseNotFound => 404
  | HttpResponseNotAllowed => 405
  | HttpResponseServerError => 500
  end.

(** ** The framework behaviour the views inherit *)

Module Django.

Inductive Exn :=
| Http404
| PermissionDenied
| MultipleObjectsReturned
| IntegrityError
| ValueError.

(** A view runs against the database and either returns a value or
    raises; writes made before a raise stay (no request transaction). *)
Definition M (A : Type) : Type := DB -> (Exn + A) * DB.

Definition ret {A} (a : A) : M A := fun db => (inr a, db).
Definition raise {A} (e : Exn) : M A := fun db => (inl e, db).
Definition bind {A B} (m : M A) (k : A -> M B) : M B :=
  fun db =>
    match m db with
    | (inl e, db') => (inl e, db')
    | (inr a, db') => k a db'
    end.
Definition get_db : M DB := fun db => (inr db, db).
Definition put_db (db' : DB) : M unit := fun _ => (inr tt, db').

Declare Scope view_scope.
Delimit Scope view_scope with view.
Notation "'do' x <- m ; k" := (bind m (fun x => k))
  (at level 10, x name, m at level 100, k at level 200) : view_scope.
Local Open Scope view_scope.

(** The handler turns an uncaught exception into a response. *)
Definition exn_response (e : Exn) : Response :=
  match e with
  | Http404 => HttpResponseNotFound
  | PermissionDenied => HttpResponseForbidden
  | MultipleObjectsReturned | IntegrityError | ValueError =>
      HttpResponseServerError
  end.

Definition respond (v : M Response) (db : DB) : Response * DB :=
  match v db with
  | (inl e, db') => (exn_response e, db')
  | (inr r, db') => (r, db')
  end.

(** *** Access mixins *)

Definition is_authenticated (a : Actor) : bool :=
  match a with AnonymousUser => false | LoggedIn _ => true end.

(** [AccessMixin.handle_no_permission] with [raise_exception = False]. *)
Definition handle_no_permission (req : Request) : M Response :=
  if is_authenticated (user req) then raise PermissionDenied
  else ret (HttpResponseRedirect LoginUrl).

Definition LoginRequiredMixin_dispatch
    (req : Request) (super : M Response) : M Response :=
  if negb (is_authenticated (user req)) then handle_no_permission req
  else super.

Definition UserPassesTestMixin_dispatch
    (req : Request) (test_func : M bool) (super : M Response) : M Response :=
  do user_test_result <- test_func ;
  if negb user_test_result then handle_no_permission req else super.

(** *** [View.dispatch]

    A view answers the methods it has a handler for; [head] falls back
    to [get], [options] is always there, the rest is 405. *)
Record Handlers := {
  h_get : option (M Response);
  h_post : option (M Response);
  h_put : option (M Response);
  h_delete : option (M Response)
}.

Definition View_dispatch (req : Request) (h : Handlers) : M Response :=
  let handler :=
    match method req with
    | GET | HEAD => h_get h
    | POST => h_post h
    | PUT => h_put h
    | DELETE => h_delete h
    | OPTIONS => Some (ret HttpResponseAllow)
    | PATCH | TRACE => None
    end in
  match handler with
  | Some run => run
  | None => ret HttpResponseNotAllowed
  end.

(** *** Querysets *)

Definition QuerySet := list (nat * Post).

(** [Post.objects.all()]: every row of the table.  Without [order_by]
    the order of the rows is the database's (by key, in practice); the
    model enumerates the table in the map's own order, and the
    properties below rest on which rows are listed and how many, not on
    that order. *)
Definition objects_all : M QuerySet :=
  do db <- get_db ; ret (map_to_list (posts db)).

(** [.filter(author=user)] *)
Definition filter_author (u : User) (qs : QuerySet) : QuerySet :=
  List.filter (fun r => Nat.eqb (author (snd r)) (user_pk u)) qs.

(** [.order_by('-date_posted')] *)
Definition newer_first (r1 r2 : nat * Post) : Prop :=
  (date_posted (snd r2) <= date_posted (snd r1))%Z.

Global Instance newer_first_dec r1 r2 : Decision (newer_first r1 r2).
Proof. unfold newer_first. apply _. Defined.

Definition order_by_date_desc (qs : QuerySet) : QuerySet :=
  merge_sort newer_first qs.

(** [SingleObjectMixin.get_object]: look the row up by [pk]. *)
Definition get_object (pk : nat) : M Post :=
  do db <- get_db ;
  match posts db !! pk with
  | Some p => ret p
  | None => raise Http404
  end.

(** [get_object_or_404(User, username=...)]; a missing URL keyword is
    [None] and matches no row. *)
Definition get_user_or_404 (name : option string) : M User :=
  do db <- get_db ;
  match name with
  | None => raise Http404
  | Some n =>
      match List.filter (fun u => String.eqb (username u) n) (users db) with
      | [] => raise Http404
      | [u] => ret u
      | _ => raise MultipleObjectsReturned
      end
  end.

(** *** Paginator ([orphans = 0], [allow_empty_first_page = True]) *)

Definition num_pages (per_page : Z) (qs : QuerySet) : Z :=
  let hits := Z.max 1 (Z.of_nat (length qs)) in
  (hits + per_page - 1) / per_page.

Definition Paginator_page (per_page : Z) (qs : QuerySet) (number : Z)
    : M (QuerySet * Z * Z) :=
  if (number <? 1)%Z then raise Http404
  else if (num_pages per_page qs <? number)%Z then raise Http404
  else
    let bottom := ((number - 1) * per_page)%Z in
    let top := Z.min (bottom + per_page) (Z.of_nat (length qs)) in
    ret (take (Z.to_nat (top - bottom)) (drop (Z.to_nat bottom) qs),
         number, num_pages per_page qs).

(** [MultipleObjectMixin.paginate_queryset] *)
Definition paginate_queryset (per_page : Z) (qs : QuerySet) (arg : PageArg)
    : M (QuerySet * Z * Z) :=
  match arg with
  | PageAbsent => Paginator_page per_page qs 1
  | PageInt n => Paginator_page per_page qs n
  | PageLast => Paginator_page per_page qs (num_pages per_page qs)
  | PageMalformed => raise Http404
  end.

(** [BaseListView.get] for a view with [paginate_by] set. *)
Definition ListView_get (req : Request) (get_queryset : M QuerySet)
    (paginate_by : Z) : M Response :=
  do object_list <- get_queryset ;
  do pg <- paginate_queryset paginate_by object_list (page req) ;
  let '(page_items, number, total) := pg in
  ret (HttpResponse (PostList page_items (Some (number, total)))).

Definition ListView (req : Request) (get_queryset : M QuerySet)
    (paginate_by : Z) : M Response :=
  View_dispatch req
    {| h_get := Some (ListView_get req get_queryset paginate_by);
       h_post := None; h_put := None; h_delete := None |}.

(** *** Model instances and saving *)

(** An in-memory [Post] instance: not yet saved ([i_pk = None]) or
    loaded from a row; the author may still be unset. *)
Record Instance := {
  i_pk : option nat;
  i_title : string;
  i_content : string;
  i_date_posted : Z;
  i_author : option nat
}.

Definition instance_of_row (pk : nat) (p : Post) : Instance :=
  {| i_pk := Some pk; i_title := title p; i_content := content p;
     i_date_posted := date_posted p; i_author := Some (author p) |}.

(** Modelled from the spec: [blog/models.py] is not among the sources;
    the creation timestamp is "set once, server-assigned", so a new
    [Post()] carries the clock reading [now] of the request and nothing
    changes it afterwards. *)
Definition new_instance (now : Z) : Instance :=
  {| i_pk := None; i_title := ""; i_content := "";
     i_date_posted := now; i_author := None |}.

(** [construct_instance]: the form writes its own fields only. *)
Definition construct_instance (inst : Instance) (cleaned : PostForm)
    : Instance :=
  {| i_pk := i_pk inst; i_title := form_title cleaned;
     i_content := form_content cleaned;
     i_date_posted := i_date_posted inst; i_author := i_author inst |}.

(** [instance.author = request.user] *)
Definition set_author (inst : Instance) (req : Request) : M Instance :=
  match user req with
  | AnonymousUser => raise ValueError
  | LoggedIn u =>
      ret {| i_pk := i_pk inst; i_title := i_title inst;
             i_content := i_content inst;
             i_date_posted := i_date_posted inst;
             i_author := Some (user_pk u) |}
  end.

(** [Model.save]: the author column is NOT NULL; a new instance gets a
    primary key the table does not use, a loaded one is written back
    under its own key.  Returns the key.  Which unused key a new row
    gets is the database's choice (it counts upwards and hands no key
    out twice); the model takes some key that is unused now, and the
    properties below use no more of it than that. *)
Definition save (inst : Instance) : M nat :=
  match i_author inst with
  | None => raise IntegrityError
  | Some a =>
      do db <- get_db ;
      let row := {| title := i_title inst; content := i_content inst;
                    date_posted := i_date_posted inst; author := a |} in
      let pk := match i_pk inst with
                | Some k => k
                | None => fresh (dom (posts db))
                end in
      do _ <- put_db {| posts := <[pk := row]> (posts db);
                        users := users db |} ;
      ret pk
  end.

(** [Model.delete] *)
Definition delete_row (pk : nat) : M unit :=
  do db <- get_db ;
  put_db {| posts := delete pk (posts db); users := users db |}.

(** [ModelFormMixin.form_valid]: save, then redirect to the object's
    absolute URL. *)
Definition ModelFormMixin_form_valid (inst : Instance) : M Response :=
  do pk <- save inst ;
  ret (HttpResponseRedirect (AbsoluteUrl pk)).

(** *** Form-processing views

    [full_clean] is the validation the model form derives from the
    [Post] model's field declarations: [None] when the submitted data
    is rejected, the cleaned data otherwise.  A rejected submission is
    answered with the form page again, bound to the submitted data; the
    object that page shows for an update is the in-memory instance, into
    which the form has already written the fields that did validate, so
    the page records the key of the object only. *)
Definition ProcessFormView_post
    (full_clean : PostForm -> option PostForm) (req : Request)
    (inst : Instance) (form_valid : Instance -> M Response) : M Response :=
  match full_clean (POST_data req) with
  | Some cleaned => form_valid (construct_instance inst cleaned)
  | None => ret (HttpResponse (PostFormErrors (i_pk inst) (POST_data req)))
  end.

Definition CreateView (full_clean : PostForm -> option PostForm)
    (now : Z) (req : Request) (form_valid : Instance -> M Response)
    : M Response :=
  let post :=
    ProcessFormView_post full_clean req (new_instance now) form_valid in
  View_dispatch req
    {| h_get := Some (ret (HttpResponse (PostFormPage None)));
       h_post := Some post; h_put := Some post; h_delete := None |}.

Definition UpdateView (full_clean : PostForm -> option PostForm)
    (pk : nat) (req : Request) (form_valid : Instance -> M Response)
    : M Response :=
  let post :=
    do p <- get_object pk ;
    ProcessFormView_post full_clean req (instance_of_row pk p) form_valid in
  View_dispatch req
    {| h_get := Some (do p <- get_object pk ;
                      ret (HttpResponse (PostFormPage (Some (pk, p)))));
       h_post := Some post; h_put := Some post; h_delete := None |}.

Definition DeleteView (pk : nat) (req : Request) (success_url : string)
    : M Response :=
  let post :=
    do p <- get_object pk ;
    do _ <- delete_row pk ;
    ret (HttpResponseRedirect (Path success_url)) in
  View_dispatch req
    {| h_get := Some (do p <- get_object pk ;
                      ret (HttpResponse (PostConfirmDelete pk p)));
       h_post := Some post; h_put := None; h_delete := Some post |}.

Definition DetailView (pk : nat) (req : Request) : M Response :=
  View_dispatch req
    {| h_get := Some (do p <- get_object pk ;
                      ret (HttpResponse (PostDetail pk p)));
       h_post := None; h_put := None; h_delete := None |}.

End Django.

(** ** blog/views.py *)

Module Blog.
Import Django.
Local Open Scope view_scope.

(** [request.user == post.author] *)
Definition user_is (a : Actor) (author_id : nat) : bool :=
  match a with
  | AnonymousUser => false
  | LoggedIn u => Nat.eqb (user_pk u) author_id
  end.

Definition home (req : Request) : M Response :=
  do all <- objects_all ;
  ret (HttpResponse (PostList all None)).

Definition paginate_by : Z := 8.

Definition PostListView_get_queryset : M QuerySet :=
  do all <- objects_all ;
  ret (order_by_date_desc all).

Definition PostListView (req : Request) : M Response :=
  ListView req PostListView_get_queryset paginate_by.

Definition UserPostListView_get_queryset (kw_username : option string)
    : M QuerySet :=
  do u <- get_user_or_404 kw_username ;
  do all <- objects_all ;
  ret (order_by_date_desc (filter_author u all)).

Definition UserPostListView (kw_username : option string) (req : Request)
    : M Response :=
  ListView req (UserPostListView_get_queryset kw_username) paginate_by.

Definition PostDetailView (pk : nat) (req : Request) : M Response :=
  DetailView pk req.

Definition about (req : Request) : M Response :=
  ret (HttpResponse About).

Section PostForms.
Variable full_clean : PostForm -> option PostForm.

Definition PostCreateView_form_valid (req : Request) (inst : Instance)
    : M Response :=
  do inst' <- set_author inst req ;
  ModelFormMixin_form_valid inst'.

Definition PostCreateView (now : Z) (req : Request) : M Response :=
  LoginRequiredMixin_dispatch req
    (CreateView full_clean now req (PostCreateView_form_valid req)).

Definition PostUpdateView_form_valid (req : Request) (inst : Instance)
    : M Response :=
  do inst' <- set_author inst req ;
  ModelFormMixin_form_valid inst'.

Definition PostUpdateView_test_func (pk : nat) (req : Request) : M bool :=
  do post <- get_object pk ;
  if user_is (user req) (author post) then ret true else ret false.

Definition PostUpdateView (pk : nat) (req : Request) : M Response :=
  LoginRequiredMixin_dispatch req
    (UserPassesTestMixin_dispatch req (PostUpdateView_test_func pk req)
       (UpdateView full_clean pk req (PostUpdateView_form_valid req))).

Definition PostDeleteView_test_func (pk : nat) (req : Request) : M bool :=
  do post <- get_object pk ;
  if user_is (user req) (author post) then ret true else ret false.

Definition PostDeleteView (pk : nat) (req : Request) : M Response :=
  LoginRequiredMixin_dispatch req
    (UserPassesTestMixin_dispatch req (PostDeleteView_test_func pk req)
       (DeleteView pk req "/")).

End PostForms.

(** The same request sent by another actor, or for another page. *)
Definition as_user (a : Actor) (req : Request) : Request :=
  {| method := method req; user := a; POST_data := POST_data req;
     page := page req |}.

Definition at_page (n : Z) (req : Request) : Request :=
  {| method := method req; user := user req; POST_data := POST_data req;
     page := PageInt n |}.

(** Page [n] of an ordered queryset: its [n]-th run of [paginate_by]
    rows. *)
Definition nth_page (n : Z) (ordered : QuerySet) : QuerySet :=
  take (Z.to_nat paginate_by)
    (drop (Z.to_nat (paginate_by * (n - 1))) ordered).

(** A validation rule to run the views on concrete data: the title is
    required (the specification's "title (non-empty text)"). *)
Definition title_required (f : PostForm) : option PostForm :=
  if String.eqb (form_title f) "" then None else Some f.

End Blog.

(** ** Registration and profile lifecycle

    Of the users application only its test suite is among the sources;
    the data model and the two operations below follow the
    specification's registration/profile lifecycle. *)

Module Users.

Inductive Field := F_username | F_email | F_password1 | F_password2 | F_image.

Definition Field_eqb (f g : Field) : bool :=
  match f, g with
  | F_username, F_username | F_email, F_email | F_password1, F_password1
  | F_password2, F_password2 | F_image, F_image => true
  | _, _ => false
  end.

Definition ValidationErrors := list (Field * string).

(** The messages recorded for one field, in the order they were found. *)
Definition errors_on (f : Field) (errs : ValidationErrors) : list string :=
  List.map snd (List.filter (fun e => Field_eqb (fst e) f) errs).

Inductive ImageRef := Placeholder | Uploaded (name : string).

Record Account := {
  acc_username : string;
  acc_email : string;
  acc_credential : string
}.

Record Profile := { image : ImageRef }.

(** The identity store: accounts by identifier, and the profile of an
    account under the same identifier (one to one). *)
Record IdentityStore := {
  accounts : gmap nat Account;
  profiles : gmap nat Profile
}.

(** What a request to the users application can change: the identity
    store, who the session is logged in as, and the queued
    user-visible messages. *)
Record Site := {
  identity : IdentityStore;
  session : option nat;
  flash : list string
}.

Record RegisterForm := {
  r_username : string;
  r_email : string;
  r_password : string;
  r_password_confirmation : string
}.

Record Upload := { file_name : string; file_content : string }.

Definition msg_account_created : string :=
  "Your account has been created! You are now able to login".
Definition msg_invalid_email : string := "Enter a valid email address.".
Definition msg_invalid_image : string := "Upload a valid image.".
(** The specification fixes the wording of the three messages above
    only; the others are named after what they report. *)
Definition msg_invalid_username : string := "Enter a valid username.".
Definition msg_username_taken : string :=
  "A user with that username already exists.".
Definition msg_email_taken : string :=
  "A user with that email already exists.".
Definition msg_password_mismatch : string :=
  "The two password fields didn't match.".
Definition msg_password_weak : string := "This password is too weak.".

(** [findUserByUsername], [findUserByEmail] *)
Definition findUserByUsername (name : string) (st : IdentityStore)
    : option (nat * Account) :=
  List.find (fun r => String.eqb (acc_username (snd r)) name)
    (map_to_list (accounts st)).

Definition findUserByEmail (addr : string) (st : IdentityStore)
    : option (nat * Account) :=
  List.find (fun r => String.eqb (acc_email (snd r)) addr)
    (map_to_list (accounts st)).

Section Lifecycle.
(** The syntactic checks and the credential hash belong to the
    framework; the lifecycle is stated for any choice of them. *)
Variable username_ok : string -> bool.
Variable email_ok : string -> bool.
Variable password_ok : string -> bool.
Variable hash : string -> string.
Variable is_image : Upload -> bool.

Definition username_errors (form : RegisterForm) (st : IdentityStore)
    : ValidationErrors :=
  if negb (username_ok (r_username form)) then
    [(F_username, msg_invalid_username)]
  else if bool_decide (is_Some (findUserByUsername (r_username form) st))
  then
    [(F_username, msg_username_taken)]
  else [].

Definition email_errors (form : RegisterForm) (st : IdentityStore)
    : ValidationErrors :=
  if negb (email_ok (r_email form)) then [(F_email, msg_invalid_email)]
  else if bool_decide (is_Some (findUserByEmail (r_email form) st)) then
    [(F_email, msg_email_taken)]
  else [].

Definition password_errors (form : RegisterForm) : ValidationErrors :=
  if negb (String.eqb (r_password form) (r_password_confirmation form))
  then [(F_password2, msg_password_mismatch)]
  else if negb (password_ok (r_password form)) then
    [(F_password2, msg_password_weak)]
  else [].

Definition validate (form : RegisterForm) (st : IdentityStore)
    : ValidationErrors :=
  (username_errors form st ++ email_errors form st
     ++ password_errors form)%list.

(** Modelled from the spec: the registration handler
    ([users/views.py], [users/forms.py] and [users/models.py] are not
    part of the sources at hand).  On valid input the account and
    its profile are written together, one confirmation message is
    queued and the session is left as it was; on invalid input
    nothing is written and the errors come back with the input. *)
Definition register (form : RegisterForm) (site : Site)
    : (ValidationErrors * RegisterForm + nat * Account) * Site :=
  let st := identity site in
  match validate form st with
  | [] =>
      let pk := fresh (dom (accounts st) ∪ dom (profiles st)) in
      let acct := {| acc_username := r_username form;
                     acc_email := r_email form;
                     acc_credential := hash (r_password form) |} in
      (inr (pk, acct),
       {| identity :=
            {| accounts := <[pk := acct]> (accounts st);
               profiles := <[pk := {| image := Placeholder |}]>
                             (profiles st) |};
          session := session site;
          flash := (flash site ++ [msg_account_created])%list |})
  | errs => (inl (errs, form), site)
  end.

Inductive UpdateResult :=
| Updated
| NotFound
| ValidationFailed (errs : ValidationErrors).

(** Modelled from the spec: the profile-image update
    ([users/forms.py] and [users/views.py] are not part of the
    sources at hand).  The upload is optional; a payload that is not
    an image is rejected on the [image] field and nothing is
    written. *)
Definition update_profile_image (pk : nat) (upload : option Upload)
    (st : IdentityStore) : UpdateResult * IdentityStore :=
  match profiles st !! pk with
  | None => (NotFound, st)
  | Some _ =>
      match upload with
      | None => (Updated, st)
      | Some f =>
          if is_image f then
            (Updated,
             {| accounts := accounts st;
                profiles := <[pk := {| image := Uploaded (file_name f) |}]>
                              (profiles st) |})
          else (ValidationFailed [(F_image, msg_invalid_image)], st)
      end
  end.

End Lifecycle.

(** Concrete checks to run the lifecycle on the data of the test
    suite: an address is a non-empty local part, one [@] and a
    non-empty domain. *)
Fixpoint count_at (s : string) : nat :=
  match s with
  | EmptyString => 0
  | String c r => (if Ascii.eqb c "@"%char then 1 else 0) + count_at r
  end.

Fixpoint ends_with_at (s : string) : bool :=
  match s with
  | EmptyString => false
  | String c EmptyString => Ascii.eqb c "@"%char
  | String _ r => ends_with_at r
  end.

Definition email_shape_ok (s : string) : bool :=
  Nat.eqb (count_at s) 1 &&
  negb (ends_with_at s) &&
  match s with
  | EmptyString => false
  | String c _ => negb (Ascii.eqb c "@"%char)
  end.

Definition nonempty (s : string) : bool := negb (String.eqb s "").

Definition min_length_8 (s : string) : bool := Nat.leb 8 (String.length s).

(** Pillow accepts a file by its content; here: a PNG or JPEG magic
    prefix. *)
Definition magic_image (f : Upload) : bool :=
  String.prefix "PNG" (file_content f) || String.prefix "JFIF" (file_content f).

End Users.

(** ** Data of the test suites *)

Module Fixtures.
Import Django Blog Users.

Definition testuser : User := {| user_pk := 1; username := "testuser" |}.
Definition anotheruser : User :=
  {| user_pk := 2; username := "anotheruser" |}.

Definition test_post : Post :=
  {| title := "Test Post"; content := "This is a test post content.";
     date_posted := 100; author := 1 |}.

Definition blog_db : DB :=
  {| posts := {[ 1 := test_post ]}; users := [testuser; anotheruser] |}.

Definition request (m : Method) (a : Actor) (t c : string) : Request :=
  {| method := m; user := a;
     POST_data := {| form_title := t; form_content := c |};
     page := PageAbsent |}.

Definition new_post_form : PostForm :=
  {| form_title := "New Post"; form_content := "New Post Content" |}.

Definition updated_post_form : PostForm :=
  {| form_title := "Updated Post"; form_content := "Updated Post Content" |}.

(** Nine posts by [testuser], one per day. *)
Definition nth_post (i : nat) : nat * Post :=
  (i, {| title := "Post"; content := "Text";
         date_posted := Z.of_nat i; author := 1 |}).

Definition nine_posts_db : DB :=
  {| posts := list_to_map (List.map nth_post (seq 1 9));
     users := [testuser; anotheruser] |}.

(** No post yet, and a form the title check rejects. *)
Definition empty_blog_db : DB :=
  {| posts := ∅; users := [testuser; anotheruser] |}.

Definition untitled_form : PostForm :=
  {| form_title := ""; form_content := "Text" |}.

Definition empty_site : Site :=
  {| identity := {| accounts := ∅; profiles := ∅ |};
     session := None; flash := [] |}.

Definition newuser_form : RegisterForm :=
  {| r_username := "newuser"; r_email := "newuser@example.com";
     r_password := "newpassword123";
     r_password_confirmation := "newpassword123" |}.

Definition invalid_email_form : RegisterForm :=
  {| r_username := "newuser"; r_email := "invalidemail";
     r_password := "newpassword123";
     r_password_confirmation := "newpassword123" |}.

Definition one_profile_store : IdentityStore :=
  {| accounts := {[ 1 := {| acc_username := "testuser";
                            acc_email := "testuser@example.com";
                            acc_credential := "testpassword" |} ]};
     profiles := {[ 1 := {| image := Placeholder |} ]} |}.

Definition not_an_image : Upload :=
  {| file_name := "test_image.jpg"; file_content := "file_content" |}.

End Fixtures.

(** ** Notions used to state what the views keep *)

Module Notions.
Import Django Blog.

(** Every row of [db] is either gone in [db'] or still has its author
    and its timestamp. *)
Definition keeps_authorship (db db' : DB) : Prop :=
  ∀ pk p, posts db !! pk = Some p →
    posts db' !! pk = None
    ∨ ∃ p', posts db' !! pk = Some p'
            ∧ author p' = author p ∧ date_posted p' = date_posted p.

(** The rows a response lists, and the number of pages it reports. *)
Definition page_items (r : Response) : QuerySet :=
  match r with
  | HttpResponse (PostList l _) => l
  | _ => []
  end.

Definition reported_pages (r : Response) : Z :=
  match r with
  | HttpResponse (PostList _ (Some (_, total))) => total
  | _ => 0%Z
  end.

(** What [view] answers when the request asks for page [n]. *)
Definition answer_for_page (view : Request → M Response) (req : Request)
    (db : DB) (n : Z) : Response :=
  fst (respond (view (at_page n req)) db).

(** The rows [view] answers for page 1, page 2 and so on, up to the
    number of pages its own answer for page 1 reports, laid end to
    end. *)
Definition all_pages (view : Request → M Response) (req : Request) (db : DB)
    : QuerySet :=
  let total := reported_pages (answer_for_page view req db 1) in
  List.concat
    (List.map (fun i => page_items (answer_for_page view req db
                                      (Z.of_nat i + 1)))
       (seq 0 (Z.to_nat total))).

(** The sizes of the pages [view] answers over a queryset of [rows]
    rows: [total] pages, [rows] divided by eight and rounded up (one
    page when there is no row); eight rows on every page before the
    last, the remaining rows on the last. *)
Definition page_size_rule (view : Request → M Response) (req : Request)
    (db : DB) (rows : nat) : Prop :=
  ∃ total : Z,
    (8 * (total - 1) < Z.max 1 (Z.of_nat rows) ∧
     Z.max 1 (Z.of_nat rows) <= 8 * total)%Z
    ∧ ∀ n : Z, (1 <= n <= total)%Z →
        ∃ l,
          respond (view (at_page n req)) db
          = (HttpResponse (PostList l (Some (n, total))), db)
          ∧ ((n < total)%Z → length l = 8)
          ∧ (n = total → length l = rows - 8 * Z.to_nat (n - 1))
          ∧ (rows ≠ 0 → (1 <= length l)%nat).

(** Whatever [view] lists on a page is at least as new as whatever it
    lists on a later page. *)
Definition pages_in_order (view : Request → M Response) (req : Request)
    (db : DB) : Prop :=
  ∀ (n m : Z) l1 l2 pg1 pg2 x y,
    (n < m)%Z →
    respond (view (at_page n req)) db = (HttpResponse (PostList l1 pg1), db) →
    respond (view (at_page m req)) db = (HttpResponse (PostList l2 pg2), db) →
    x ∈ l1 → y ∈ l2 →
    (date_posted (snd y) <= date_posted (snd x))%Z.

(** What a paginated view over the ordered queryset [qs] answers for
    each form of the [page] parameter. *)
Definition page_argument_rule (view : Request → M Response) (req : Request)
    (db : DB) (qs : QuerySet) : Prop :=
  let last := num_pages paginate_by qs in
  let shows (n : Z) :=
    respond (view req) db
    = (HttpResponse (PostList (nth_page n qs) (Some (n, last))), db) in
  match page req with
  | PageAbsent => shows 1%Z
  | PageInt n =>
      if decide (1 <= n <= last)%Z then shows n
      else respond (view req) db = (HttpResponseNotFound, db)
  | PageLast => shows last
  | PageMalformed => respond (view req) db = (HttpResponseNotFound, db)
  end.

(** The methods no view of the blog writes on. *)
Definition safe_method (m : Method) : bool :=
  match m with
  | GET | HEAD | OPTIONS | PATCH | TRACE => true
  | POST | PUT | DELETE => false
  end.

End Notions.

(** ** Authorization of the post views *)

Import Django Blog Notions.
Local Close Scope string_scope.

Ltac run_view :=
  unfold respond, PostUpdateView, PostDeleteView, PostCreateView,
    LoginRequiredMixin_dispatch, UserPassesTestMixin_dispatch,
    handle_no_permission, PostUpdateView_test_func, PostDeleteView_test_func,
    UpdateView, DeleteView, CreateView, View_dispatch, ProcessFormView_post,
    PostUpdateView_form_valid, PostCreateView_form_valid,
    ModelFormMixin_form_valid, set_author, save, delete_row,
    get_object, bind, ret, raise, get_db, put_db;
  simpl.

Lemma user_is_author u p : user_is (LoggedIn u) (author p) = true ↔ user_pk u = author p.
Proof. simpl. apply Nat.eqb_eq. Qed.

Lemma user_is_not_author u p :
  user_pk u ≠ author p → user_is (LoggedIn u) (author p) = false.
Proof. intros Hne. simpl. by apply Nat.eqb_neq. Qed.

Section Authorization.
Variable full_clean : PostForm -> option PostForm.

(** The ownership test of both views reads the row and compares keys;
    it writes nothing. *)
Lemma test_func_reads_only pk req db p :
  posts db !! pk = Some p →
  PostUpdateView_test_func pk req db = (inr (user_is (user req) (author p)), db)
  ∧ PostDeleteView_test_func pk req db
    = (inr (user_is (user req) (author p)), db).
Proof.
  intros Hp. run_view. rewrite Hp.
  destruct (user_is (user req) (author p)); split; reflexivity.
Qed.

Lemma update_by_non_author req db pk p u :
  user req = LoggedIn u →
  posts db !! pk = Some p →
  user_pk u ≠ author p →
  respond (PostUpdateView full_clean pk req) db = (HttpResponseForbidden, db).
Proof.
  intros Hu Hp Hne. apply Nat.eqb_neq in Hne. run_view.
  by repeat (progress (simpl; rewrite ?Hu, ?Hp, ?Hne)).
Qed.

Lemma delete_by_non_author req db pk p u :
  user req = LoggedIn u →
  posts db !! pk = Some p →
  user_pk u ≠ author p →
  respond (PostDeleteView pk req) db = (HttpResponseForbidden, db).
Proof.
  intros Hu Hp Hne. apply Nat.eqb_neq in Hne. run_view.
  by repeat (progress (simpl; rewrite ?Hu, ?Hp, ?Hne)).
Qed.

(** What [form_valid] of either view does with an instance, whoever
    its author was: the author written is the actor's. *)
Lemma form_valid_stamps_actor req u inst db :
  user req = LoggedIn u →
  let row := {| title := i_title inst; content := i_content inst;
                date_posted := i_date_posted inst; author := user_pk u |} in
  let pk := match i_pk inst with
            | Some k => k
            | None => fresh (dom (posts db))
            end in
  PostUpdateView_form_valid req inst db
  = (inr (HttpResponseRedirect (AbsoluteUrl pk)),
     {| posts := <[pk := row]> (posts db); users := users db |})
  ∧ PostCreateView_form_valid req inst db
    = (inr (HttpResponseRedirect (AbsoluteUrl pk)),
       {| posts := <[pk := row]> (posts db); users := users db |}).
Proof. intros Hu. run_view. by rewrite Hu. Qed.

Lemma update_by_author_valid req db pk p u cleaned :
  user req = LoggedIn u →
  posts db !! pk = Some p →
  user_pk u = author p →
  method req = POST ∨ method req = PUT →
  full_clean (POST_data req) = Some cleaned →
  respond (PostUpdateView full_clean pk req) db
  = (HttpResponseRedirect (AbsoluteUrl pk),
     {| posts :=
          <[pk := {| title := form_title cleaned;
                     content := form_content cleaned;
                     date_posted := date_posted p;
                     author := user_pk u |}]> (posts db);
        users := users db |}).
Proof.
  intros Hu Hp Ha Hm Hc. apply Nat.eqb_eq in Ha. run_view.
  destruct Hm as [Hm | Hm];
    by repeat (progress (simpl; rewrite ?Hu, ?Hp, ?Ha, ?Hm, ?Hc)).
Qed.

(** C1: a logged-in actor who is not the author of post [p] is refused
    with 403 on the update view and on the delete view, whatever the
    method and the submitted data, and the database (so the row of [p],
    its title, content, author and existence) is as before. *)
Theorem non_author_is_forbidden req db pk p u :
  user req = LoggedIn u →
  posts db !! pk = Some p →
  user_pk u ≠ author p →
  respond (PostUpdateView full_clean pk req) db = (HttpResponseForbidden, db)
  ∧ respond (PostDeleteView pk req) db = (HttpResponseForbidden, db)
  ∧ status_code HttpResponseForbidden = 403%Z
  ∧ posts (snd (respond (PostUpdateView full_clean pk req) db)) !! pk = Some p
  ∧ posts (snd (respond (PostDeleteView pk req) db)) !! pk = Some p.
Proof.
  intros Hu Hp Hne.
  rewrite (update_by_non_author req db pk p u Hu Hp Hne).
  rewrite (delete_by_non_author req db pk p u Hu Hp Hne).
  simpl. auto.
Qed.

(** C2: an anonymous create attempt, whatever its method and data, is
    answered by a 302 redirect to the login page and leaves the
    database as it was (no post is created); an edit or delete attempt
    by a logged-in non-author is answered by 403, which is no
    redirect. *)
Theorem redirect_for_anonymous_forbidden_for_non_owner now req db :
  (user req = AnonymousUser →
     respond (PostCreateView full_clean now req) db
     = (HttpResponseRedirect LoginUrl, db)
     ∧ status_code (fst (respond (PostCreateView full_clean now req) db))
       = 302%Z)
  ∧ (∀ u pk p r,
       user req = LoggedIn u →
       posts db !! pk = Some p →
       user_pk u ≠ author p →
       r = fst (respond (PostUpdateView full_clean pk req) db)
       ∨ r = fst (respond (PostDeleteView pk req) db) →
       status_code r = 403%Z ∧ ∀ t, r ≠ HttpResponseRedirect t).
Proof.
  split.
  - intros Hu. run_view. by rewrite Hu.
  - intros u pk p r Hu Hp Hne Hr.
    rewrite (update_by_non_author req db pk p u Hu Hp Hne) in Hr.
    rewrite (delete_by_non_author req db pk p u Hu Hp Hne) in Hr.
    simpl in Hr. destruct Hr as [-> | ->]; by split.
Qed.

(** C3: a create or an edit that passes the access checks and the form
    validation stores the row with the acting user as author: the
    hook assigns [request.user] to the instance and then saves it.
    On update the hook does so for any loaded instance, whoever its
    author was. *)
Theorem author_is_stamped_before_save now req db u cleaned :
  user req = LoggedIn u →
  method req = POST ∨ method req = PUT →
  full_clean (POST_data req) = Some cleaned →
  (let pk := fresh (dom (posts db)) in
   posts db !! pk = None
   ∧ respond (PostCreateView full_clean now req) db
     = (HttpResponseRedirect (AbsoluteUrl pk),
        {| posts :=
             <[pk := {| title := form_title cleaned;
                        content := form_content cleaned;
                        date_posted := now;
                        author := user_pk u |}]> (posts db);
           users := users db |}))
  ∧ (∀ pk p,
       posts db !! pk = Some p →
       user_pk u = author p →
       respond (PostUpdateView full_clean pk req) db
       = (HttpResponseRedirect (AbsoluteUrl pk),
          {| posts :=
               <[pk := {| title := form_title cleaned;
                          content := form_content cleaned;
                          date_posted := date_posted p;
                          author := user_pk u |}]> (posts db);
             users := users db |}))
  ∧ (∀ pk p,
       ∃ db',
         PostUpdateView_form_valid req
           (construct_instance (instance_of_row pk p) cleaned) db
         = (inr (HttpResponseRedirect (AbsoluteUrl pk)), db')
         ∧ author <$> posts db' !! pk = Some (user_pk u)).
Proof.
  intros Hu Hm Hc. split; [|split].
  - split.
    + apply not_elem_of_dom, is_fresh.
    + run_view.
      destruct Hm as [Hm | Hm];
        by repeat (progress (simpl; rewrite ?Hu, ?Hm, ?Hc)).
  - intros pk p Hp Ha. by apply update_by_author_valid.
  - intros pk p. eexists. split.
    + exact (proj1 (form_valid_stamps_actor req u
               (construct_instance (instance_of_row pk p) cleaned) db Hu)).
    + simpl. by rewrite lookup_insert_eq.
Qed.

(** C4: the author of post [p] passes the access checks of the update
    view (no 403, no login redirect), and a valid submission rewrites
    the row of [p] under the same key with the cleaned title and
    content; author and timestamp of [p], every other row, the set of
    keys and the users are as before. *)
Theorem author_edit_changes_title_and_content req db pk p u :
  user req = LoggedIn u →
  posts db !! pk = Some p →
  user_pk u = author p →
  (fst (respond (PostUpdateView full_clean pk req) db) ≠ HttpResponseForbidden
   ∧ fst (respond (PostUpdateView full_clean pk req) db)
     ≠ HttpResponseRedirect LoginUrl)
  ∧ (∀ cleaned,
       method req = POST ∨ method req = PUT →
       full_clean (POST_data req) = Some cleaned →
       ∃ db',
         respond (PostUpdateView full_clean pk req) db
         = (HttpResponseRedirect (AbsoluteUrl pk), db')
         ∧ posts db' !! pk
           = Some {| title := form_title cleaned;
                     content := form_content cleaned;
                     date_posted := date_posted p;
                     author := author p |}
         ∧ (∀ k, k ≠ pk → posts db' !! k = posts db !! k)
         ∧ dom (posts db') = dom (posts db)
         ∧ users db' = users db).
Proof.
  intros Hu Hp Ha. split.
  - pose proof Ha as Hb. apply Nat.eqb_eq in Hb. run_view.
    repeat (progress (simpl; rewrite ?Hu, ?Hp, ?Hb)).
    destruct (method req); simpl; rewrite ?Hp; simpl;
      try (destruct (full_clean (POST_data req)); simpl; rewrite ?Hu);
      by split.
  - intros cleaned Hm Hc. eexists. split.
    { by apply (update_by_author_valid req db pk p u cleaned). }
    simpl. rewrite lookup_insert_eq, Ha. split; [done|]. split.
    { intros k Hk. by rewrite lookup_insert_ne. }
    split; [|done].
    apply dom_insert_lookup_L. eauto.
Qed.

End Authorization.

(** ** Listing: ordering and pagination *)

Global Instance newer_first_total : Total newer_first.
Proof. intros x y. unfold newer_first. lia. Qed.

Global Instance newer_first_trans : Transitive newer_first.
Proof. intros x y z. unfold newer_first. lia. Qed.

Lemma ordered_is_sorted qs : StronglySorted newer_first (order_by_date_desc qs).
Proof. apply StronglySorted_merge_sort; apply _. Qed.

Lemma ordered_is_perm qs : order_by_date_desc qs ≡ₚ qs.
Proof. apply merge_sort_Permutation. Qed.

Lemma StronglySorted_take_drop {A} (R : relation A) (l : list A) n m :
  StronglySorted R l → StronglySorted R (take n (drop m l)).
Proof.
  intros Hl.
  rewrite <- (take_drop m l) in Hl. apply StronglySorted_app_1_r in Hl.
  rewrite <- (take_drop n (drop m l)) in Hl.
  by apply StronglySorted_app_1_l in Hl.
Qed.

Lemma num_pages_pos qs : (1 <= num_pages paginate_by qs)%Z.
Proof.
  unfold num_pages, paginate_by.
  apply Z.div_le_lower_bound; lia.
Qed.

Lemma page_size_is_eight : Z.to_nat paginate_by = 8.
Proof. reflexivity. Qed.

Lemma nth_page_length n qs : length (nth_page n qs) ≤ 8.
Proof. unfold nth_page. rewrite page_size_is_eight, length_take. lia. Qed.

Lemma nth_page_sorted n qs :
  StronglySorted newer_first qs → StronglySorted newer_first (nth_page n qs).
Proof. apply StronglySorted_take_drop. Qed.

(** The slice [object_list[bottom:top]] of the paginator is the run of
    eight rows that starts at [bottom]. *)
Lemma Paginator_page_in_range qs n db :
  (1 <= n <= num_pages paginate_by qs)%Z →
  Paginator_page paginate_by qs n db
  = (inr (nth_page n qs, n, num_pages paginate_by qs), db).
Proof.
  intros [Hlo Hhi]. unfold Paginator_page.
  destruct (Z.ltb_spec n 1); [lia|].
  destruct (Z.ltb_spec (num_pages paginate_by qs) n); [lia|].
  unfold ret, nth_page. rewrite page_size_is_eight.
  replace ((n - 1) * paginate_by)%Z with (paginate_by * (n - 1))%Z by lia.
  set (b := (paginate_by * (n - 1))%Z).
  assert (Hslice :
    take (Z.to_nat (Z.min (b + paginate_by) (Z.of_nat (length qs)) - b))
      (drop (Z.to_nat b) qs)
    = take 8 (drop (Z.to_nat b) qs)).
  { unfold paginate_by in *.
    destruct (Z.le_gt_cases (b + 8) (Z.of_nat (length qs))) as [Hle | Hgt].
    - rewrite Z.min_l by lia. f_equal. lia.
    - rewrite Z.min_r by lia.
      rewrite !take_ge; [done | |]; rewrite length_drop; lia. }
  by rewrite Hslice.
Qed.

Lemma Paginator_page_out_of_range qs n db :
  ¬ (1 <= n <= num_pages paginate_by qs)%Z →
  Paginator_page paginate_by qs n db = (inl Http404, db).
Proof.
  intros Hn. unfold Paginator_page.
  destruct (Z.ltb_spec n 1); [done|].
  destruct (Z.ltb_spec (num_pages paginate_by qs) n); [done | lia].
Qed.

Lemma paginate_queryset_outcome qs arg db :
  paginate_queryset paginate_by qs arg db = (inl Http404, db)
  ∨ ∃ n : Z,
      (1 <= n <= num_pages paginate_by qs)%Z
      ∧ paginate_queryset paginate_by qs arg db
        = (inr (nth_page n qs, n, num_pages paginate_by qs), db).
Proof.
  pose proof (num_pages_pos qs) as Hpos.
  destruct arg as [|n| |]; simpl.
  - right. exists 1%Z. split; [lia|]. apply Paginator_page_in_range. lia.
  - destruct (decide (1 <= n <= num_pages paginate_by qs)%Z) as [Hn | Hn].
    + right. exists n. split; [done|]. by apply Paginator_page_in_range.
    + left. by apply Paginator_page_out_of_range.
  - right. exists (num_pages paginate_by qs). split; [lia|].
    apply Paginator_page_in_range. lia.
  - by left.
Qed.

(** Every row of the queryset is on one of its pages. *)
Lemma row_on_some_page (qs : QuerySet) (x : nat * Post) :
  x ∈ qs →
  ∃ n : Z, (1 <= n <= num_pages paginate_by qs)%Z ∧ x ∈ nth_page n qs.
Proof.
  intros Hx. apply list_elem_of_lookup in Hx as [i Hi].
  pose proof (lookup_lt_Some _ _ _ Hi) as Hlt.
  pose proof (Nat.div_mod_eq i 8) as Hdm.
  pose proof (Nat.mod_upper_bound i 8 ltac:(lia)) as Hmod.
  exists (Z.of_nat (i / 8) + 1)%Z. split.
  - split; [lia|]. unfold num_pages, paginate_by.
    apply Z.div_le_lower_bound; lia.
  - unfold nth_page. rewrite page_size_is_eight. unfold paginate_by.
    apply elem_of_take. exists (i mod 8). split; [|lia].
    rewrite lookup_drop. rewrite <- Hi. f_equal. lia.
Qed.

Lemma objects_all_reads db :
  objects_all db = (inr (map_to_list (posts db)), db).
Proof. reflexivity. Qed.

Lemma PostListView_queryset db :
  PostListView_get_queryset db
  = (inr (order_by_date_desc (map_to_list (posts db))), db).
Proof. reflexivity. Qed.

Lemma get_user_found name u db :
  List.filter (fun v => String.eqb (username v) name) (users db) = [u] →
  get_user_or_404 (Some name) db = (inr u, db).
Proof. intros Hf. unfold get_user_or_404, bind, get_db. by rewrite Hf. Qed.

Lemma UserPostListView_queryset name u db :
  List.filter (fun v => String.eqb (username v) name) (users db) = [u] →
  UserPostListView_get_queryset (Some name) db
  = (inr (order_by_date_desc (filter_author u (map_to_list (posts db)))), db).
Proof.
  intros Hf. unfold UserPostListView_get_queryset, bind.
  by rewrite (get_user_found name u db Hf).
Qed.

Lemma elem_of_filter_author u pk p db :
  (pk, p) ∈ filter_author u (map_to_list (posts db))
  ↔ posts db !! pk = Some p ∧ author p = user_pk u.
Proof.
  unfold filter_author. rewrite list_elem_of_In, filter_In.
  rewrite <- list_elem_of_In, elem_of_map_to_list. simpl.
  rewrite Nat.eqb_eq. tauto.
Qed.

Lemma ListView_at_page req get_queryset qs db n :
  method req = GET ∨ method req = HEAD →
  get_queryset db = (inr qs, db) →
  (1 <= n <= num_pages paginate_by qs)%Z →
  respond (ListView (at_page n req) get_queryset paginate_by) db
  = (HttpResponse
       (PostList (nth_page n qs) (Some (n, num_pages paginate_by qs))), db).
Proof.
  intros Hm Hq Hn. unfold respond, ListView, View_dispatch. simpl.
  destruct Hm as [-> | ->]; unfold ListView_get, bind; rewrite Hq; simpl;
    by rewrite (Paginator_page_in_range qs n db Hn).
Qed.

Lemma filter_username_none name (us : list User) :
  (∀ u, u ∈ us → username u ≠ name) →
  List.filter (fun v => String.eqb (username v) name) us = [].
Proof.
  induction us as [|u us IH]; intros Hall; [done|]. simpl.
  destruct (String.eqb_spec (username u) name) as [Heq | _].
  - exfalso. apply (Hall u); [left | done].
  - apply IH. intros v Hv. apply Hall. by right.
Qed.

Lemma ListView_page_argument req get_queryset qs db :
  method req = GET ∨ method req = HEAD →
  get_queryset db = (inr qs, db) →
  page_argument_rule (fun r => ListView r get_queryset paginate_by) req db qs.
Proof.
  intros Hm Hq. pose proof (num_pages_pos qs) as Hpos.
  assert (Hrun : respond (ListView req get_queryset paginate_by) db
                 = match paginate_queryset paginate_by qs (page req) db with
                   | (inl e, d) => (exn_response e, d)
                   | (inr (items, number, total), d) =>
                       (HttpResponse (PostList items (Some (number, total))), d)
                   end).
  { unfold respond, ListView, View_dispatch.
    destruct Hm as [-> | ->]; simpl; unfold ListView_get, bind; rewrite Hq;
      by destruct (paginate_queryset paginate_by qs (page req) db)
        as [[e | [[items number] total]] d]. }
  unfold page_argument_rule. rewrite Hrun.
  destruct (page req) as [|n| |]; simpl.
  - by rewrite Paginator_page_in_range by lia.
  - case_decide as Hn.
    + by rewrite Paginator_page_in_range.
    + by rewrite Paginator_page_out_of_range.
  - by rewrite Paginator_page_in_range by lia.
  - done.
Qed.

Lemma page_answer_is_a_page view req db qs l pg :
  page_argument_rule view req db qs →
  fst (respond (view req) db) = HttpResponse (PostList l pg) →
  ∃ n : Z, (1 <= n <= num_pages paginate_by qs)%Z ∧ l = nth_page n qs.
Proof.
  pose proof (num_pages_pos qs) as Hpos.
  unfold page_argument_rule. intros Hrule Hl.
  destruct (page req) as [|n| |].
  - rewrite Hrule in Hl. injection Hl as <- _. exists 1%Z. split; [lia|done].
  - case_decide as Hn; rewrite Hrule in Hl; [|done].
    injection Hl as <- _. by exists n.
  - rewrite Hrule in Hl. injection Hl as <- _.
    exists (num_pages paginate_by qs). split; [lia|done].
  - by rewrite Hrule in Hl.
Qed.

(** C7: the list view orders all posts by timestamp, newest first, and
    the per-user list view orders exactly the posts of the user the name
    resolves to in the same way; each answers the page the request asks
    for (page 1 by default, 404 for a page that does not exist), a
    listing it answers holds at most eight rows, newest first, all of
    them rows of the table (of that author), and every such row is on
    one of the pages. *)
Theorem list_views_order_and_paginate req db :
  method req = GET ∨ method req = HEAD →
  (let ordered := order_by_date_desc (map_to_list (posts db)) in
   StronglySorted newer_first ordered
   ∧ (∀ pk p, (pk, p) ∈ ordered ↔ posts db !! pk = Some p)
   ∧ page_argument_rule PostListView req db ordered
   ∧ (∀ l pg,
        fst (respond (PostListView req) db) = HttpResponse (PostList l pg) →
        length l ≤ 8
        ∧ StronglySorted newer_first l
        ∧ ∀ pk p, (pk, p) ∈ l → posts db !! pk = Some p)
   ∧ (∀ pk p, posts db !! pk = Some p →
        ∃ (n : Z) l pg,
          respond (PostListView (at_page n req)) db
          = (HttpResponse (PostList l pg), db)
          ∧ (pk, p) ∈ l))
  ∧ (∀ name u,
       List.filter (fun v => String.eqb (username v) name) (users db) = [u] →
       let ordered :=
         order_by_date_desc (filter_author u (map_to_list (posts db))) in
       StronglySorted newer_first ordered
       ∧ (∀ pk p, (pk, p) ∈ ordered
                  ↔ posts db !! pk = Some p ∧ author p = user_pk u)
       ∧ page_argument_rule (UserPostListView (Some name)) req db ordered
       ∧ (∀ l pg,
            fst (respond (UserPostListView (Some name) req) db)
            = HttpResponse (PostList l pg) →
            length l ≤ 8
            ∧ StronglySorted newer_first l
            ∧ ∀ pk p, (pk, p) ∈ l →
                posts db !! pk = Some p ∧ author p = user_pk u)
       ∧ (∀ pk p, posts db !! pk = Some p → author p = user_pk u →
            ∃ (n : Z) l pg,
              respond (UserPostListView (Some name) (at_page n req)) db
              = (HttpResponse (PostList l pg), db)
              ∧ (pk, p) ∈ l)).
Proof.
  intros Hm.
  assert (Hview : ∀ get_queryset qs,
            get_queryset db = (inr qs, db) →
            StronglySorted newer_first qs →
            let view := fun r => ListView r get_queryset paginate_by in
            page_argument_rule view req db qs
            ∧ (∀ l pg,
                 fst (respond (view req) db) = HttpResponse (PostList l pg) →
                 length l ≤ 8 ∧ StronglySorted newer_first l
                 ∧ ∀ x, x ∈ l → x ∈ qs)
            ∧ (∀ x, x ∈ qs →
                 ∃ (n : Z) l pg,
                   respond (view (at_page n req)) db
                   = (HttpResponse (PostList l pg), db)
                   ∧ x ∈ l)).
  { intros get_queryset qs Hq Hsorted view.
    pose proof (ListView_page_argument req get_queryset qs db Hm Hq) as Hrule.
    split; [done|]. split.
    - intros l pg Hl.
      destruct (page_answer_is_a_page view req db qs l pg Hrule Hl)
        as (n & _ & ->).
      split; [apply nth_page_length|]. split; [by apply nth_page_sorted|].
      intros x Hx. unfold nth_page in Hx.
      apply elem_of_take in Hx as (i & Hi & _). rewrite lookup_drop in Hi.
      by eapply list_elem_of_lookup_2.
    - intros x Hx.
      destruct (row_on_some_page qs x Hx) as (n & Hn & Hin).
      exists n, (nth_page n qs), (Some (n, num_pages paginate_by qs)).
      split; [|done]. by apply ListView_at_page. }
  split.
  - intros ordered.
    assert (Hmem : ∀ pk p, (pk, p) ∈ ordered ↔ posts db !! pk = Some p).
    { intros pk p. unfold ordered.
      rewrite (ordered_is_perm (map_to_list (posts db))).
      apply elem_of_map_to_list. }
    destruct (Hview PostListView_get_queryset ordered
                (PostListView_queryset db) (ordered_is_sorted _))
      as (Hrule & Hpage & Hall).
    split; [apply ordered_is_sorted|]. split; [done|]. split; [done|].
    split.
    + intros l pg Hl. destruct (Hpage l pg Hl) as (Hlen & Hs & Hsub).
      split; [done|]. split; [done|].
      intros pk p Hin. by apply Hmem, Hsub.
    + intros pk p Hp. apply Hall. by apply Hmem.
  - intros name u Hf ordered.
    assert (Hmem : ∀ pk p, (pk, p) ∈ ordered
                           ↔ posts db !! pk = Some p ∧ author p = user_pk u).
    { intros pk p. unfold ordered.
      rewrite (ordered_is_perm (filter_author u (map_to_list (posts db)))).
      apply elem_of_filter_author. }
    destruct (Hview (UserPostListView_get_queryset (Some name)) ordered
                (UserPostListView_queryset name u db Hf)
                (ordered_is_sorted _))
      as (Hrule & Hpage & Hall).
    split; [apply ordered_is_sorted|]. split; [done|]. split; [done|].
    split.
    + intros l pg Hl. destruct (Hpage l pg Hl) as (Hlen & Hs & Hsub).
      split; [done|]. split; [done|].
      intros pk p Hin. by apply Hmem, Hsub.
    + intros pk p Hp Ha. apply Hall. by apply Hmem.
Qed.

(** C8: the list view and the detail view never look at [request.user]:
    the answer is the same for every actor, anonymous included; it is
    never a 403 or a login redirect, and a GET of the first page or of an
    existing post is answered with the data. *)
Theorem public_reads_need_no_login req db a :
  respond (PostListView (as_user a req)) db = respond (PostListView req) db
  ∧ (∀ pk, respond (PostDetailView pk (as_user a req)) db
           = respond (PostDetailView pk req) db)
  ∧ (method req = GET ∨ method req = HEAD →
       (page req = PageAbsent →
          ∃ l pg, respond (PostListView (as_user a req)) db
                  = (HttpResponse (PostList l pg), db))
       ∧ (∀ pk p, posts db !! pk = Some p →
            respond (PostDetailView pk (as_user a req)) db
            = (HttpResponse (PostDetail pk p), db)))
  ∧ (∀ pk r,
       r = fst (respond (PostListView (as_user a req)) db)
       ∨ r = fst (respond (PostDetailView pk (as_user a req)) db) →
       r ≠ HttpResponseForbidden ∧ r ≠ HttpResponseRedirect LoginUrl).
Proof.
  assert (Hl : respond (PostListView (as_user a req)) db
               = respond (PostListView req) db) by reflexivity.
  assert (Hd : ∀ pk, respond (PostDetailView pk (as_user a req)) db
                     = respond (PostDetailView pk req) db) by reflexivity.
  split; [done|]. split; [done|]. split.
  - intros Hm. split.
    + intros Hpage. rewrite Hl.
      unfold respond, PostListView, ListView, View_dispatch.
      destruct Hm as [-> | ->]; simpl; unfold ListView_get, bind;
        rewrite PostListView_queryset, Hpage; simpl;
        (rewrite Paginator_page_in_range
           by (pose proof (num_pages_pos
                 (order_by_date_desc (map_to_list (posts db)))); lia));
        eauto.
    + intros pk p Hp. rewrite Hd.
      unfold respond, PostDetailView, DetailView, View_dispatch.
      destruct Hm as [-> | ->]; simpl; unfold get_object, bind, get_db;
        simpl; by rewrite Hp.
  - intros pk r Hr. rewrite Hl, Hd in Hr. destruct Hr as [-> | ->].
    + unfold respond, PostListView, ListView, View_dispatch.
      destruct (method req); simpl; try done;
        unfold ListView_get, bind; rewrite PostListView_queryset;
        (destruct (paginate_queryset_outcome
                     (order_by_date_desc (map_to_list (posts db)))
                     (page req) db) as [-> | (n & _ & ->)]; done).
    + unfold respond, PostDetailView, DetailView, View_dispatch.
      destruct (method req); simpl; try done;
        unfold get_object, bind, get_db; simpl;
        by destruct (posts db !! pk).
Qed.

(** C10: a listing request for a user name that no user has (or with no
    name at all) is answered with 404 by the lookup that precedes the
    query; it is not an empty page, and nothing is written. *)
Theorem unknown_author_is_not_found req db kw :
  method req = GET ∨ method req = HEAD →
  (∀ name u, kw = Some name → u ∈ users db → username u ≠ name) →
  respond (UserPostListView kw req) db = (HttpResponseNotFound, db)
  ∧ status_code (fst (respond (UserPostListView kw req) db)) = 404%Z
  ∧ ∀ l pg, fst (respond (UserPostListView kw req) db)
            ≠ HttpResponse (PostList l pg).
Proof.
  intros Hm Hno.
  assert (Hr : respond (UserPostListView kw req) db
               = (HttpResponseNotFound, db)).
  { unfold respond, UserPostListView, ListView, View_dispatch.
    assert (Hq : UserPostListView_get_queryset kw db = (inl Http404, db)).
    { unfold UserPostListView_get_queryset, get_user_or_404, bind, get_db.
      destruct kw as [name|]; [|done].
      rewrite filter_username_none; [done|]. intros u Hu. by apply Hno. }
    destruct Hm as [-> | ->]; simpl; unfold ListView_get, bind;
      by rewrite Hq. }
  rewrite Hr. by repeat split.
Qed.

(** ** Registration and profile image *)

Import Users.

Section LifecycleFacts.
Variable username_ok email_ok password_ok : string -> bool.
Variable hash : string -> string.
Variable is_image : Upload -> bool.

Lemma username_errors_field form st :
  errors_on F_email (username_errors username_ok form st) = [].
Proof.
  unfold username_errors.
  destruct (negb (username_ok (r_username form))); [done|].
  by case_bool_decide.
Qed.

Lemma errors_on_app f (e1 e2 : ValidationErrors) :
  errors_on f (e1 ++ e2) = errors_on f e1 ++ errors_on f e2.
Proof. unfold errors_on. by rewrite List.filter_app, List.map_app. Qed.

Lemma fresh_identifier_unused (st : IdentityStore) :
  let pk := fresh (dom (accounts st) ∪ dom (profiles st)) in
  accounts st !! pk = None ∧ profiles st !! pk = None.
Proof.
  intros pk.
  pose proof (is_fresh (dom (accounts st) ∪ dom (profiles st))) as Hfresh.
  fold pk in Hfresh. apply not_elem_of_union in Hfresh as [Ha Hp].
  split; by apply not_elem_of_dom.
Qed.

(** C5: a registration that succeeds has written one account and, under
    the same identifier, its profile with the placeholder image (the
    identifier was unused in both tables, so each grows by one), has
    queued the one confirmation message and has left the session as it
    was; a registration that fails has written nothing.  It succeeds
    exactly when validation finds no error. *)
Theorem registration_writes_account_and_profile form site :
  match register username_ok email_ok password_ok hash form site with
  | (inr (pk, acct), site') =>
      validate username_ok email_ok password_ok form (identity site) = []
      ∧ accounts (identity site) !! pk = None
      ∧ profiles (identity site) !! pk = None
      ∧ accounts (identity site') = <[pk := acct]> (accounts (identity site))
      ∧ profiles (identity site')
        = <[pk := {| image := Placeholder |}]> (profiles (identity site))
      ∧ size (accounts (identity site'))
        = S (size (accounts (identity site)))
      ∧ size (profiles (identity site'))
        = S (size (profiles (identity site)))
      ∧ acc_username acct = r_username form
      ∧ acc_email acct = r_email form
      ∧ flash site' = flash site ++ [msg_account_created]
      ∧ session site' = session site
  | (inl (errs, shown), site') =>
      validate username_ok email_ok password_ok form (identity site) = errs
      ∧ errs ≠ []
      ∧ shown = form
      ∧ site' = site
  end.
Proof.
  unfold register.
  destruct (validate username_ok email_ok password_ok form (identity site))
    as [|e errs] eqn:Hv.
  - destruct (fresh_identifier_unused (identity site)) as [Ha Hp].
    simpl. repeat split; try done.
    + by apply map_size_insert_None.
    + by apply map_size_insert_None.
  - by repeat split.
Qed.

(** C6: a registration whose e-mail address fails the syntax check is
    rejected: the first error recorded for the [email] field is
    "Enter a valid email address.", the input comes back with the
    errors, and the site (accounts, profiles, session, messages) is as
    before. *)
Theorem invalid_email_is_rejected form site :
  email_ok (r_email form) = false →
  ∃ errs,
    register username_ok email_ok password_ok hash form site
    = (inl (errs, form), site)
    ∧ head (errors_on F_email errs) = Some msg_invalid_email
    ∧ (F_email, msg_invalid_email) ∈ errs.
Proof.
  intros Hbad.
  assert (Hemail : email_errors email_ok form (identity site)
                   = [(F_email, msg_invalid_email)]).
  { unfold email_errors. by rewrite Hbad. }
  exists (validate username_ok email_ok password_ok form (identity site)).
  assert (Hin : (F_email, msg_invalid_email)
                ∈ validate username_ok email_ok password_ok form
                    (identity site)).
  { unfold validate. rewrite Hemail.
    apply elem_of_app. right. apply elem_of_app. left. by left. }
  split; [|split; [|done]].
  - unfold register.
    destruct (validate username_ok email_ok password_ok form
                (identity site)); [|done].
    by apply elem_of_nil in Hin.
  - unfold validate. rewrite !errors_on_app, username_errors_field, Hemail.
    reflexivity.
Qed.

(** C9: an upload that is not an image changes nothing in the identity
    store, and for an existing profile the answer is the error
    "Upload a valid image." on the [image] field; the image reference
    of the profile is the one it had. *)
Theorem non_image_upload_is_rejected pk f st :
  is_image f = false →
  snd (update_profile_image is_image pk (Some f) st) = st
  ∧ (∀ prof, profiles st !! pk = Some prof →
       ∃ errs,
         update_profile_image is_image pk (Some f) st
         = (ValidationFailed errs, st)
         ∧ errors_on F_image errs = [msg_invalid_image]
         ∧ image <$> profiles
                       (snd (update_profile_image is_image pk (Some f) st))
                     !! pk
           = Some (image prof)).
Proof.
  intros Hbad. unfold update_profile_image. split.
  - destruct (profiles st !! pk); [by rewrite Hbad | done].
  - intros prof Hprof. rewrite Hprof, Hbad.
    exists [(F_image, msg_invalid_image)]. simpl. by rewrite Hprof.
Qed.

End LifecycleFacts.

(** ** The scenarios of the test suites *)

Import Fixtures.

(** [test_post_update_view_not_authenticated] and
    [test_post_delete_view_not_authenticated]: [anotheruser] on the post
    of [testuser]. *)
Lemma non_author_is_forbidden_witness :
  let req := request POST (LoggedIn anotheruser)
               "Updated Post" "Updated Post Content" in
  respond (PostUpdateView title_required 1 req) blog_db
  = (HttpResponseForbidden, blog_db)
  ∧ respond (PostDeleteView 1 req) blog_db = (HttpResponseForbidden, blog_db)
  ∧ status_code HttpResponseForbidden = 403%Z
  ∧ posts (snd (respond (PostUpdateView title_required 1 req) blog_db)) !! 1
    = Some test_post
  ∧ posts (snd (respond (PostDeleteView 1 req) blog_db)) !! 1 = Some test_post.
Proof.
  intros req.
  apply (non_author_is_forbidden title_required req blog_db 1 test_post
           anotheruser).
  - reflexivity.
  - reflexivity.
  - simpl. lia.
Defined.

(** [test_post_create_view_not_authenticated], and the non-owner again. *)
Lemma redirect_for_anonymous_forbidden_for_non_owner_witness :
  respond (PostCreateView title_required 200
             (request POST AnonymousUser "New Post" "New Post Content"))
    blog_db
  = (HttpResponseRedirect LoginUrl, blog_db)
  ∧ status_code
      (fst (respond (PostUpdateView title_required 1
                       (request POST (LoggedIn anotheruser) "Updated Post"
                          "Updated Post Content")) blog_db)) = 403%Z.
Proof.
  split.
  - apply (proj1 (redirect_for_anonymous_forbidden_for_non_owner
                    title_required 200
                    (request POST AnonymousUser "New Post" "New Post Content")
                    blog_db)).
    reflexivity.
  - apply (proj2 (redirect_for_anonymous_forbidden_for_non_owner
                    title_required 200
                    (request POST (LoggedIn anotheruser) "Updated Post"
                       "Updated Post Content")
                    blog_db) anotheruser 1 test_post).
    + reflexivity.
    + reflexivity.
    + simpl. lia.
    + left. reflexivity.
Defined.

(** [test_post_create_view_authenticated]: the new row is by
    [testuser]; and the same submission sent to the update view of the
    existing post. *)
Lemma author_is_stamped_before_save_witness :
  let req := request POST (LoggedIn testuser) "New Post" "New Post Content" in
  let pk := fresh (dom (posts blog_db)) in
  (posts blog_db !! pk = None
   ∧ respond (PostCreateView title_required 200 req) blog_db
     = (HttpResponseRedirect (AbsoluteUrl pk),
        {| posts :=
             <[pk := {| title := "New Post"; content := "New Post Content";
                        date_posted := 200; author := 1 |}]> (posts blog_db);
           users := users blog_db |}))
  ∧ respond (PostUpdateView title_required 1 req) blog_db
    = (HttpResponseRedirect (AbsoluteUrl 1),
       {| posts :=
            <[1 := {| title := "New Post"; content := "New Post Content";
                      date_posted := 100; author := 1 |}]> (posts blog_db);
          users := users blog_db |}).
Proof.
  intros req pk.
  destruct (author_is_stamped_before_save title_required 200 req blog_db
              testuser new_post_form eq_refl (or_introl eq_refl) eq_refl)
    as (Hcreate & Hupdate & _).
  split.
  - exact Hcreate.
  - exact (Hupdate 1 test_post eq_refl eq_refl).
Defined.

(** [test_post_update_view_authenticated]: the title is the new one, the
    author is still [testuser]. *)
Lemma author_edit_changes_title_and_content_witness :
  let req := request POST (LoggedIn testuser)
               "Updated Post" "Updated Post Content" in
  ∃ db',
    respond (PostUpdateView title_required 1 req) blog_db
    = (HttpResponseRedirect (AbsoluteUrl 1), db')
    ∧ posts db' !! 1
      = Some {| title := "Updated Post"; content := "Updated Post Content";
                date_posted := 100; author := 1 |}
    ∧ (∀ k, k ≠ 1 → posts db' !! k = posts blog_db !! k)
    ∧ dom (posts db') = dom (posts blog_db)
    ∧ users db' = users blog_db.
Proof.
  intros req.
  apply (proj2 (author_edit_changes_title_and_content title_required req
                  blog_db 1 test_post testuser eq_refl eq_refl eq_refl)
           updated_post_form (or_introl eq_refl) eq_refl).
Defined.

(** The function view [home] has no paginator: with nine posts it
    renders all nine in one response. *)
Lemma home_answers_nine_posts_at_once :
  ¬ (∀ req db l pg,
       fst (respond (home req) db) = HttpResponse (PostList l pg) →
       length l ≤ 8).
Proof.
  intros Hclaim.
  pose proof (Hclaim (request GET AnonymousUser "" "") nine_posts_db
                (map_to_list (posts nine_posts_db)) None eq_refl) as Hlen.
  vm_compute in Hlen. lia.
Qed.

(** Nine posts on two pages of the list views; there is no page 3. *)
Lemma list_views_order_and_paginate_witness :
  page_argument_rule PostListView (request GET AnonymousUser "" "")
    nine_posts_db (order_by_date_desc (map_to_list (posts nine_posts_db)))
  ∧ page_argument_rule PostListView
      (at_page 3 (request GET AnonymousUser "" "")) nine_posts_db
      (order_by_date_desc (map_to_list (posts nine_posts_db)))
  ∧ page_argument_rule (UserPostListView (Some "testuser"%string))
      (request GET AnonymousUser "" "") nine_posts_db
      (order_by_date_desc
         (filter_author testuser (map_to_list (posts nine_posts_db)))).
Proof.
  pose proof (list_views_order_and_paginate
                (request GET AnonymousUser "" "") nine_posts_db
                (or_introl eq_refl)) as (Hall & Hby).
  pose proof (list_views_order_and_paginate
                (at_page 3 (request GET AnonymousUser "" "")) nine_posts_db
                (or_introl eq_refl)) as (Hthree & _).
  split; [apply Hall|]. split; [apply Hthree|].
  apply (Hby "testuser"%string testuser). reflexivity.
Defined.

(** [test_blog_home_view] and [test_post_detail_view]: no login. *)
Lemma public_reads_need_no_login_witness :
  (∃ l pg, respond (PostListView (request GET AnonymousUser "" "")) blog_db
           = (HttpResponse (PostList l pg), blog_db))
  ∧ respond (PostDetailView 1 (request GET AnonymousUser "" "")) blog_db
    = (HttpResponse (PostDetail 1 test_post), blog_db).
Proof.
  pose proof (public_reads_need_no_login (request GET AnonymousUser "" "")
                blog_db AnonymousUser) as (_ & _ & Hget & _).
  destruct (Hget (or_introl eq_refl)) as [Hlist Hdetail].
  split.
  - apply Hlist. reflexivity.
  - apply (Hdetail 1 test_post). reflexivity.
Defined.

(** No user is called [nobody]. *)
Lemma unknown_author_is_not_found_witness :
  respond (UserPostListView (Some "nobody"%string) (request GET AnonymousUser "" ""))
    blog_db
  = (HttpResponseNotFound, blog_db).
Proof.
  apply (unknown_author_is_not_found (request GET AnonymousUser "" "")
           blog_db (Some "nobody"%string)).
  - left. reflexivity.
  - intros name u Hname Hu. injection Hname as <-.
    apply list_elem_of_In in Hu. simpl in Hu.
    destruct Hu as [<- | [<- | []]]; discriminate.
Defined.

(** [test_user_register_view] and [test_messages_after_registration]. *)
Lemma registration_writes_account_and_profile_witness :
  ∃ pk acct site',
    register nonempty email_shape_ok min_length_8 id newuser_form empty_site
    = (inr (pk, acct), site')
    ∧ size (accounts (identity site')) = 1
    ∧ size (profiles (identity site')) = 1
    ∧ flash site' = [msg_account_created]
    ∧ session site' = None.
Proof.
  pose proof (registration_writes_account_and_profile nonempty email_shape_ok
                min_length_8 id newuser_form empty_site) as Hreg.
  destruct (register nonempty email_shape_ok min_length_8 id newuser_form
              empty_site) as [[[errs shown] | [pk acct]] site'] eqn:Hrun.
  - exfalso. destruct Hreg as (Hv & Hne & _). apply Hne. rewrite <- Hv.
    reflexivity.
  - exists pk, acct, site'.
    destruct Hreg as (_ & _ & _ & _ & _ & Hsa & Hsp & _ & _ & Hflash & Hsess).
    repeat split; assumption.
Defined.

(** [test_invalid_user_register_view]: the address [invalidemail]. *)
Lemma invalid_email_is_rejected_witness :
  ∃ errs,
    register nonempty email_shape_ok min_length_8 id invalid_email_form
      empty_site
    = (inl (errs, invalid_email_form), empty_site)
    ∧ head (errors_on F_email errs) = Some "Enter a valid email address."%string
    ∧ (F_email, "Enter a valid email address."%string) ∈ errs.
Proof.
  apply (invalid_email_is_rejected nonempty email_shape_ok min_length_8 id
           invalid_email_form empty_site).
  reflexivity.
Defined.

(** [test_profile_update_form]: a file that only claims to be a JPEG. *)
Lemma non_image_upload_is_rejected_witness :
  ∃ errs,
    update_profile_image magic_image 1 (Some not_an_image) one_profile_store
    = (ValidationFailed errs, one_profile_store)
    ∧ errors_on F_image errs = ["Upload a valid image."%string]
    ∧ image <$> profiles
                  (snd (update_profile_image magic_image 1 (Some not_an_image)
                          one_profile_store)) !! 1
      = Some Placeholder.
Proof.
  apply (proj2 (non_image_upload_is_rejected magic_image 1 not_an_image
                  one_profile_store eq_refl) {| image := Placeholder |}).
  reflexivity.
Defined.


(** ** What each guarded view answers, case by case *)

Import Notions.

Section DecisionTables.
Variable full_clean : PostForm -> option PostForm.

Lemma PostCreateView_table now req db :
  respond (PostCreateView full_clean now req) db
  = match user req with
    | AnonymousUser => (HttpResponseRedirect LoginUrl, db)
    | LoggedIn u =>
        match method req with
        | GET | HEAD => (HttpResponse (PostFormPage None), db)
        | POST | PUT =>
            match full_clean (POST_data req) with
            | Some c =>
                (HttpResponseRedirect (AbsoluteUrl (fresh (dom (posts db)))),
                 {| posts :=
                      <[fresh (dom (posts db)) :=
                          {| title := form_title c; content := form_content c;
                             date_posted := now; author := user_pk u |}]>
                        (posts db);
                    users := users db |})
            | None =>
                (HttpResponse (PostFormErrors None (POST_data req)), db)
            end
        | OPTIONS => (HttpResponseAllow, db)
        | DELETE | PATCH | TRACE => (HttpResponseNotAllowed, db)
        end
    end.
Proof.
  run_view. destruct (user req) as [|u] eqn:Hu; simpl; [done|].
  destruct (method req); simpl; try done;
    destruct (full_clean (POST_data req)); simpl; by rewrite ?Hu.
Qed.

Lemma PostUpdateView_table pk req db :
  respond (PostUpdateView full_clean pk req) db
  = match user req with
    | AnonymousUser => (HttpResponseRedirect LoginUrl, db)
    | LoggedIn u =>
        match posts db !! pk with
        | None => (HttpResponseNotFound, db)
        | Some p =>
            if Nat.eqb (user_pk u) (author p) then
              match method req with
              | GET | HEAD =>
                  (HttpResponse (PostFormPage (Some (pk, p))), db)
              | POST | PUT =>
                  match full_clean (POST_data req) with
                  | Some c =>
                      (HttpResponseRedirect (AbsoluteUrl pk),
                       {| posts :=
                            <[pk := {| title := form_title c;
                                       content := form_content c;
                                       date_posted := date_posted p;
                                       author := user_pk u |}]> (posts db);
                          users := users db |})
                  | None =>
                      (HttpResponse
                         (PostFormErrors (Some pk) (POST_data req)), db)
                  end
              | OPTIONS => (HttpResponseAllow, db)
              | DELETE | PATCH | TRACE => (HttpResponseNotAllowed, db)
              end
            else (HttpResponseForbidden, db)
        end
    end.
Proof.
  run_view. destruct (user req) as [|u] eqn:Hu; simpl; [done|].
  destruct (posts db !! pk) as [p|] eqn:Hp; simpl; [|done].
  destruct (Nat.eqb (user_pk u) (author p)); simpl; [|done].
  destruct (method req); simpl; rewrite ?Hp; simpl; try done;
    destruct (full_clean (POST_data req)); simpl; by rewrite ?Hu.
Qed.

Lemma PostDeleteView_table pk req db :
  respond (PostDeleteView pk req) db
  = match user req with
    | AnonymousUser => (HttpResponseRedirect LoginUrl, db)
    | LoggedIn u =>
        match posts db !! pk with
        | None => (HttpResponseNotFound, db)
        | Some p =>
            if Nat.eqb (user_pk u) (author p) then
              match method req with
              | GET | HEAD => (HttpResponse (PostConfirmDelete pk p), db)
              | POST | DELETE =>
                  (HttpResponseRedirect (Path "/"),
                   {| posts := delete pk (posts db); users := users db |})
              | OPTIONS => (HttpResponseAllow, db)
              | PUT | PATCH | TRACE => (HttpResponseNotAllowed, db)
              end
            else (HttpResponseForbidden, db)
        end
    end.
Proof.
  run_view. destruct (user req) as [|u] eqn:Hu; simpl; [done|].
  destruct (posts db !! pk) as [p|] eqn:Hp; simpl; [|done].
  destruct (Nat.eqb (user_pk u) (author p)); simpl; [|done].
  destruct (method req); simpl; rewrite ?Hp; simpl; done.
Qed.

End DecisionTables.

(** ** More on the guarded views *)

Lemma db_eta db : {| posts := posts db; users := users db |} = db.
Proof. by destruct db. Qed.

Section GuardedViews.
Variable full_clean : PostForm -> option PostForm.

(** X1: the author's POST (or DELETE) to the delete view removes exactly
    the row of that post and answers with a redirect to [/]: the key is
    gone, every other row and the users are as before, the table has one
    row less.  A GET by the author only shows the confirmation page. *)
Theorem author_delete_removes_the_row req db pk p u :
  user req = LoggedIn u →
  posts db !! pk = Some p →
  user_pk u = author p →
  (method req = POST ∨ method req = DELETE →
     ∃ db',
       respond (PostDeleteView pk req) db
       = (HttpResponseRedirect (Path "/"), db')
       ∧ posts db' !! pk = None
       ∧ (∀ k, k ≠ pk → posts db' !! k = posts db !! k)
       ∧ S (size (posts db')) = size (posts db)
       ∧ users db' = users db)
  ∧ (method req = GET ∨ method req = HEAD →
       respond (PostDeleteView pk req) db
       = (HttpResponse (PostConfirmDelete pk p), db)).
Proof.
  intros Hu Hp Ha. apply Nat.eqb_eq in Ha.
  rewrite PostDeleteView_table, Hu, Hp, Ha. split.
  - intros Hm. eexists. split.
    { destruct Hm as [-> | ->]; reflexivity. }
    simpl. split; [apply lookup_delete_eq|]. split.
    { intros k Hk. by apply lookup_delete_ne. }
    split; [|done].
    rewrite (map_size_delete_Some pk (posts db)) by eauto.
    assert (size (posts db) ≠ 0); [|lia].
    intros Hz. apply map_size_empty_iff in Hz. rewrite Hz in Hp.
    by rewrite lookup_empty in Hp.
  - intros [-> | ->]; reflexivity.
Qed.

(** X2: for a logged-in actor, the update view and the delete view
    answer 404 for a key no post has, whatever the method, and write
    nothing: [test_func] looks the post up before anything else. *)
Theorem missing_post_is_not_found req db pk u :
  user req = LoggedIn u →
  posts db !! pk = None →
  respond (PostUpdateView full_clean pk req) db = (HttpResponseNotFound, db)
  ∧ respond (PostDeleteView pk req) db = (HttpResponseNotFound, db).
Proof.
  intros Hu Hp.
  by rewrite PostUpdateView_table, PostDeleteView_table, Hu, Hp.
Qed.

(** X3: an anonymous request to the update or delete view is sent to the
    login page before the post is looked up: the answer is the same 302
    whether the key exists or not, for every method, and nothing is
    written. *)
Theorem anonymous_is_sent_to_login_first req db pk :
  user req = AnonymousUser →
  respond (PostUpdateView full_clean pk req) db
  = (HttpResponseRedirect LoginUrl, db)
  ∧ respond (PostDeleteView pk req) db = (HttpResponseRedirect LoginUrl, db).
Proof.
  intros Hu. by rewrite PostUpdateView_table, PostDeleteView_table, Hu.
Qed.

(** X4: whenever a request to the update view or to the delete view
    leaves the database different, the actor is logged in as the author
    of the post addressed and the method is one of POST, PUT, DELETE. *)
Theorem only_the_author_writes req db pk :
  snd (respond (PostUpdateView full_clean pk req) db) ≠ db
  ∨ snd (respond (PostDeleteView pk req) db) ≠ db →
  ∃ u p,
    user req = LoggedIn u
    ∧ posts db !! pk = Some p
    ∧ user_pk u = author p
    ∧ safe_method (method req) = false.
Proof.
  rewrite PostUpdateView_table, PostDeleteView_table.
  destruct (user req) as [|u]; [intros [H | H]; by destruct H|].
  destruct (posts db !! pk) as [p|]; [|intros [H | H]; by destruct H].
  destruct (Nat.eqb_spec (user_pk u) (author p)) as [Ha | _];
    [|intros [H | H]; by destruct H].
  intros Hw. exists u, p. repeat split; try done.
  destruct (method req); simpl in *; try done;
    destruct Hw as [H | H]; by destruct H.
Qed.

(** X6: a submission the form rejects writes nothing, on the create view
    and on the update view; a logged-in actor (the author, for update)
    gets the form page again, bound to the data that was submitted. *)
Theorem rejected_form_writes_nothing now req db pk :
  full_clean (POST_data req) = None →
  snd (respond (PostCreateView full_clean now req) db) = db
  ∧ snd (respond (PostUpdateView full_clean pk req) db) = db
  ∧ (∀ u, user req = LoggedIn u →
       method req = POST ∨ method req = PUT →
       fst (respond (PostCreateView full_clean now req) db)
       = HttpResponse (PostFormErrors None (POST_data req))
       ∧ ∀ p, posts db !! pk = Some p → user_pk u = author p →
           fst (respond (PostUpdateView full_clean pk req) db)
           = HttpResponse (PostFormErrors (Some pk) (POST_data req))).
Proof.
  intros Hc. rewrite PostCreateView_table, PostUpdateView_table, Hc.
  split; [|split].
  - destruct (user req); [done|]. by destruct (method req).
  - destruct (user req) as [|u]; [done|].
    destruct (posts db !! pk) as [p|]; [|done].
    destruct (Nat.eqb (user_pk u) (author p)); [|done].
    by destruct (method req).
  - intros u Hu Hm. rewrite Hu. split.
    + by destruct Hm as [-> | ->].
    + intros p Hp Ha. apply Nat.eqb_eq in Ha. rewrite Hp, Ha.
      by destruct Hm as [-> | ->].
Qed.

(** X7: no request to the create, update or delete view changes the
    author or the timestamp of a stored post: afterwards every row is
    gone or has the author and timestamp it had. *)
Theorem guarded_views_keep_authorship now req db pk :
  keeps_authorship db (snd (respond (PostCreateView full_clean now req) db))
  ∧ keeps_authorship db (snd (respond (PostUpdateView full_clean pk req) db))
  ∧ keeps_authorship db (snd (respond (PostDeleteView pk req) db)).
Proof.
  assert (Hsame : keeps_authorship db db).
  { intros k q Hq. right. by exists q. }
  rewrite PostCreateView_table, PostUpdateView_table, PostDeleteView_table.
  split; [|split].
  - destruct (user req) as [|u]; [done|].
    destruct (method req); try done;
      (destruct (full_clean (POST_data req)); [|done]);
      intros k q Hq; right; exists q; simpl;
      (rewrite lookup_insert_ne; [done|]);
      intros <-; pose proof (is_fresh (dom (posts db))) as Hf;
      apply Hf, elem_of_dom; eauto.
  - destruct (user req) as [|u]; [done|].
    destruct (posts db !! pk) as [p|] eqn:Hp; [|done].
    destruct (Nat.eqb_spec (user_pk u) (author p)) as [Ha | _]; [|done].
    destruct (method req); try done;
      (destruct (full_clean (POST_data req)) as [c|]; [|done]);
      intros k q Hq; right; simpl;
      (destruct (decide (pk = k)) as [<- | Hne];
       [rewrite lookup_insert_eq; eexists; split; [done|];
        simpl; split; congruence
       |rewrite lookup_insert_ne by done; by exists q]).
  - destruct (user req) as [|u]; [done|].
    destruct (posts db !! pk) as [p|] eqn:Hp; [|done].
    destruct (Nat.eqb (user_pk u) (author p)); [|done].
    destruct (method req); try done;
      intros k q Hq; simpl;
      (destruct (decide (pk = k)) as [<- | Hne];
       [left; apply lookup_delete_eq
       |right; rewrite lookup_delete_ne by done; by exists q]).
Qed.

(** X12: whatever was sent to the update view before, by whomever, an
    actor who is not the author of post [p] is still refused with 403
    afterwards: the update view cannot hand a post to another user. *)
Theorem update_never_transfers_ownership req1 pk1 req2 db pk p v :
  posts db !! pk = Some p →
  user req2 = LoggedIn v →
  user_pk v ≠ author p →
  let db1 := snd (respond (PostUpdateView full_clean pk1 req1) db) in
  respond (PostUpdateView full_clean pk req2) db1 = (HttpResponseForbidden, db1)
  ∧ respond (PostDeleteView pk req2) db1 = (HttpResponseForbidden, db1).
Proof.
  intros Hp Hv Hne db1.
  assert (Hrow : ∃ p', posts db1 !! pk = Some p' ∧ author p' = author p).
  { unfold db1. rewrite PostUpdateView_table.
    destruct (user req1) as [|u]; [by exists p|].
    destruct (posts db !! pk1) as [p1|] eqn:Hp1; [|by exists p].
    destruct (Nat.eqb_spec (user_pk u) (author p1)) as [Ha | _];
      [|by exists p].
    destruct (method req1); try (by exists p);
      (destruct (full_clean (POST_data req1)) as [c|]; [|by exists p]);
      simpl;
      (destruct (decide (pk1 = pk)) as [-> | Hk];
       [rewrite lookup_insert_eq; eexists; split; [done|]; simpl; congruence
       |rewrite lookup_insert_ne by done; by exists p]). }
  destruct Hrow as (p' & Hp' & Ha').
  rewrite PostUpdateView_table, PostDeleteView_table, Hv, Hp', Ha'.
  apply Nat.eqb_neq in Hne. by rewrite Hne.
Qed.

End GuardedViews.

(** ** Reads, and requests in sequence *)

Lemma ListView_reads_only req get_queryset db :
  (∀ d, snd (get_queryset d) = d) →
  snd (respond (ListView req get_queryset paginate_by) db) = db.
Proof.
  intros Hq. unfold respond, ListView, View_dispatch.
  destruct (method req); simpl; try done;
    unfold ListView_get, bind; specialize (Hq db);
    destruct (get_queryset db) as [[e | qs] d]; simpl in Hq; subst d;
    try done;
    destruct (paginate_queryset_outcome qs (page req) db)
      as [-> | (n & _ & ->)]; done.
Qed.

Lemma UserPostListView_queryset_reads_only kw d :
  snd (UserPostListView_get_queryset kw d) = d.
Proof.
  unfold UserPostListView_get_queryset, get_user_or_404, bind, get_db.
  destruct kw as [name|]; [|done].
  by destruct (List.filter _ (users d)) as [|u [|]].
Qed.

Lemma DetailView_table pk req db :
  respond (PostDetailView pk req) db
  = match method req with
    | GET | HEAD =>
        match posts db !! pk with
        | Some p => (HttpResponse (PostDetail pk p), db)
        | None => (HttpResponseNotFound, db)
        end
    | OPTIONS => (HttpResponseAllow, db)
    | POST | PUT | DELETE | PATCH | TRACE => (HttpResponseNotAllowed, db)
    end.
Proof.
  unfold respond, PostDetailView, DetailView, View_dispatch.
  destruct (method req); simpl; try done;
    unfold get_object, bind, get_db; simpl; by destruct (posts db !! pk).
Qed.

Section Sequences.
Variable full_clean : PostForm -> option PostForm.

(** X5: the five reading views ([home], [about], the two list views and
    the detail view) leave the database as it is on every request, and
    so do the create, update and delete views on every request whose
    method is GET, HEAD, OPTIONS, PATCH or TRACE. *)
Theorem reads_never_write now req db pk kw :
  snd (respond (home req) db) = db
  ∧ snd (respond (about req) db) = db
  ∧ snd (respond (PostListView req) db) = db
  ∧ snd (respond (UserPostListView kw req) db) = db
  ∧ snd (respond (PostDetailView pk req) db) = db
  ∧ (safe_method (method req) = true →
       snd (respond (PostCreateView full_clean now req) db) = db
       ∧ snd (respond (PostUpdateView full_clean pk req) db) = db
       ∧ snd (respond (PostDeleteView pk req) db) = db).
Proof.
  split; [done|]. split; [done|]. split.
  { by apply ListView_reads_only. }
  split.
  { apply ListView_reads_only, UserPostListView_queryset_reads_only. }
  split.
  { rewrite DetailView_table.
    destruct (method req); try done; by destruct (posts db !! pk). }
  intros Hsafe.
  rewrite PostCreateView_table, PostUpdateView_table, PostDeleteView_table.
  destruct (user req) as [|u]; [done|].
  split; [by destruct (method req)|].
  destruct (posts db !! pk) as [p|]; [|done].
  destruct (Nat.eqb (user_pk u) (author p)); [|done].
  by destruct (method req).
Qed.

(** X8: a post that was just created can be read back: the create view
    redirects to the new post's URL, the detail view at that key shows
    the submitted title and content with the creator as author to any
    viewer, the post is on one of the pages of the list view, and the
    rows that were there before are untouched (the table has one row
    more). *)
Theorem created_post_is_readable now req db u c viewer :
  user req = LoggedIn u →
  method req = POST ∨ method req = PUT →
  full_clean (POST_data req) = Some c →
  method viewer = GET ∨ method viewer = HEAD →
  let row := {| title := form_title c; content := form_content c;
                date_posted := now; author := user_pk u |} in
  ∃ pk db',
    respond (PostCreateView full_clean now req) db
    = (HttpResponseRedirect (AbsoluteUrl pk), db')
    ∧ respond (PostDetailView pk viewer) db'
      = (HttpResponse (PostDetail pk row), db')
    ∧ (∃ (n : Z) l pg,
         respond (PostListView (at_page n viewer)) db'
         = (HttpResponse (PostList l pg), db')
         ∧ (pk, row) ∈ l)
    ∧ (∀ k p, posts db !! k = Some p → posts db' !! k = Some p)
    ∧ size (posts db') = S (size (posts db)).
Proof.
  intros Hu Hm Hc Hv row.
  set (pk := fresh (dom (posts db))).
  assert (Hfresh : posts db !! pk = None)
    by apply not_elem_of_dom, is_fresh.
  exists pk, {| posts := <[pk := row]> (posts db); users := users db |}.
  split.
  { rewrite PostCreateView_table, Hu.
    destruct Hm as [-> | ->]; by rewrite Hc. }
  split.
  { rewrite DetailView_table. simpl. rewrite lookup_insert_eq.
    by destruct Hv as [-> | ->]. }
  split.
  { set (db' := {| posts := <[pk := row]> (posts db); users := users db |}).
    set (ordered := order_by_date_desc (map_to_list (posts db'))).
    assert (Hin : (pk, row) ∈ ordered).
    { unfold ordered. rewrite (ordered_is_perm (map_to_list (posts db'))).
      apply elem_of_map_to_list. simpl. apply lookup_insert_eq. }
    destruct (row_on_some_page ordered (pk, row) Hin) as (n & Hn & Hpage).
    exists n, (nth_page n ordered), (Some (n, num_pages paginate_by ordered)).
    split; [|done].
    apply ListView_at_page; [done | apply PostListView_queryset | done]. }
  split.
  { intros k p Hk. simpl. rewrite lookup_insert_ne; [done|].
    intros <-. congruence. }
  simpl. by apply map_size_insert_None.
Qed.

(** X10: sending the same valid edit a second time changes nothing more:
    the author is still allowed, the answer is the same redirect and the
    database is the one the first edit left. *)
Theorem repeated_edit_changes_nothing_more req db pk p u c :
  user req = LoggedIn u →
  posts db !! pk = Some p →
  user_pk u = author p →
  method req = POST ∨ method req = PUT →
  full_clean (POST_data req) = Some c →
  let db1 := snd (respond (PostUpdateView full_clean pk req) db) in
  respond (PostUpdateView full_clean pk req) db1
  = (HttpResponseRedirect (AbsoluteUrl pk), db1).
Proof.
  intros Hu Hp Ha Hm Hc db1.
  assert (Hdb1 : db1 = {| posts :=
                            <[pk := {| title := form_title c;
                                       content := form_content c;
                                       date_posted := date_posted p;
                                       author := user_pk u |}]> (posts db);
                          users := users db |}).
  { unfold db1.
    by rewrite (update_by_author_valid full_clean req db pk p u c). }
  rewrite Hdb1.
  erewrite (update_by_author_valid full_clean req _ pk _ u c);
    [|done | simpl; apply lookup_insert_eq | done | done | done].
  simpl. by rewrite insert_insert_eq.
Qed.


End Sequences.

(** ** More on pagination and ordering *)

Lemma num_pages_bounds (qs : QuerySet) :
  (8 * (num_pages paginate_by qs - 1) < Z.max 1 (Z.of_nat (length qs))
   ∧ Z.max 1 (Z.of_nat (length qs)) <= 8 * num_pages paginate_by qs)%Z.
Proof.
  unfold num_pages, paginate_by.
  set (h := Z.max 1 (Z.of_nat (length qs))).
  pose proof (Z.div_mod (h + 8 - 1) 8 ltac:(lia)) as Hdm.
  pose proof (Z.mod_pos_bound (h + 8 - 1) 8 ltac:(lia)) as Hmod.
  lia.
Qed.

Lemma nth_page_of_nat (qs : QuerySet) (i : nat) :
  nth_page (Z.of_nat i + 1) qs = take 8 (drop (8 * i) qs).
Proof.
  unfold nth_page. rewrite page_size_is_eight. unfold paginate_by.
  do 2 f_equal. lia.
Qed.

Lemma concat_chunks (qs : QuerySet) (k : nat) :
  List.concat (List.map (fun i => take 8 (drop (8 * i) qs)) (seq 0 k))
  = take (8 * k) qs.
Proof.
  induction k as [|k IH]; [done|].
  rewrite seq_S, List.map_app, List.concat_app, IH. simpl List.concat.
  rewrite app_nil_r, take_take_drop. f_equal. lia.
Qed.

Lemma StronglySorted_lookup_lt {A} (R : relation A) (l : list A) i j x y :
  StronglySorted R l → i < j → l !! i = Some x → l !! j = Some y → R x y.
Proof.
  intros Hl. revert i j.
  induction Hl as [|a l Hl IH Hall]; intros i j Hij Hi Hj; [done|].
  destruct j as [|j]; [lia|]. simpl in Hj.
  destruct i as [|i]; simpl in Hi.
  - injection Hi as <-. rewrite Forall_forall in Hall.
    apply Hall. by eapply list_elem_of_lookup_2.
  - apply (IH i j); [lia | done | done].
Qed.

Lemma nth_page_lookup (qs : QuerySet) (n : Z) x :
  (1 <= n)%Z →
  x ∈ nth_page n qs →
  ∃ i, qs !! i = Some x ∧ 8 * Z.to_nat (n - 1) ≤ i < 8 * Z.to_nat (n - 1) + 8.
Proof.
  intros Hn Hx. unfold nth_page in Hx. rewrite page_size_is_eight in Hx.
  apply elem_of_take in Hx as (j & Hj & Hlt). rewrite lookup_drop in Hj.
  exists (Z.to_nat (paginate_by * (n - 1)) + j). split; [done|].
  unfold paginate_by. lia.
Qed.

Lemma filter_sublist {A} (f : A → bool) (l : list A) :
  List.filter f l `sublist_of` l.
Proof.
  induction l as [|a l IH]; simpl; [constructor|].
  destruct (f a); by constructor.
Qed.

(** X17: how the list views read the [page] parameter: no parameter
    means page 1, [last] means the last page, a number from 1 to the
    number of pages means that page, and any other number or text is
    answered with 404. *)
Theorem list_views_follow_the_page_argument req db :
  method req = GET ∨ method req = HEAD →
  page_argument_rule PostListView req db
    (order_by_date_desc (map_to_list (posts db)))
  ∧ ∀ name u,
      List.filter (fun v => String.eqb (username v) name) (users db) = [u] →
      page_argument_rule (UserPostListView (Some name)) req db
        (order_by_date_desc (filter_author u (map_to_list (posts db)))).
Proof.
  intros Hm. split.
  - by apply (ListView_page_argument req PostListView_get_queryset).
  - intros name u Hf.
    apply (ListView_page_argument req
             (UserPostListView_get_queryset (Some name))); [done|].
    by apply UserPostListView_queryset.
Qed.

(** X16: a listing with nothing to show is still a page: with no post in
    the table the list view answers page 1 of 1 with no rows, and so
    does the per-user view for a user who exists and has written
    nothing (an unknown user is a 404 instead). *)
Theorem empty_listing_is_a_page req db :
  method req = GET ∨ method req = HEAD →
  page req = PageAbsent ∨ page req = PageInt 1 ∨ page req = PageLast →
  (posts db = ∅ →
     respond (PostListView req) db
     = (HttpResponse (PostList [] (Some (1, 1)%Z)), db))
  ∧ (∀ name u,
       List.filter (fun v => String.eqb (username v) name) (users db) = [u] →
       (∀ pk p, posts db !! pk = Some p → author p ≠ user_pk u) →
       respond (UserPostListView (Some name) req) db
       = (HttpResponse (PostList [] (Some (1, 1)%Z)), db)).
Proof.
  intros Hm Hpage.
  assert (Hempty : ∀ view,
            page_argument_rule view req db [] →
            respond (view req) db
            = (HttpResponse (PostList [] (Some (1, 1)%Z)), db)).
  { intros view. unfold page_argument_rule.
    destruct Hpage as [-> | [-> | ->]]; simpl; done. }
  split.
  - intros Hno. apply Hempty.
    pose proof (ListView_page_argument req PostListView_get_queryset
                  (order_by_date_desc (map_to_list (posts db))) db Hm
                  (PostListView_queryset db)) as Hrule.
    by rewrite Hno, map_to_list_empty in Hrule.
  - intros name u Hf Hnone. apply Hempty.
    pose proof (ListView_page_argument req
                  (UserPostListView_get_queryset (Some name))
                  (order_by_date_desc
                     (filter_author u (map_to_list (posts db)))) db Hm
                  (UserPostListView_queryset name u db Hf)) as Hrule.
    assert (Hnil : filter_author u (map_to_list (posts db)) = []).
    { apply elem_of_nil_inv. intros [pk p] Hin.
      apply elem_of_filter_author in Hin as [Hp Ha]. by apply (Hnone pk p). }
    by rewrite Hnil in Hrule.
Qed.

(** X19: the list views and the detail view answer 405 to every method
    other than GET, HEAD and OPTIONS, before they look anything up: also
    for a user name nobody has and for a key no post has; nothing is
    written. *)
Theorem read_views_refuse_other_methods req db kw pk :
  method req ≠ GET → method req ≠ HEAD → method req ≠ OPTIONS →
  respond (PostListView req) db = (HttpResponseNotAllowed, db)
  ∧ respond (UserPostListView kw req) db = (HttpResponseNotAllowed, db)
  ∧ respond (PostDetailView pk req) db = (HttpResponseNotAllowed, db).
Proof.
  intros Hg Hh Ho.
  unfold respond, PostListView, UserPostListView, PostDetailView, ListView,
    DetailView, View_dispatch.
  by destruct (method req).
Qed.

(** ** More scenarios *)

(** [test_post_delete_view_authenticated]: [testuser] deletes the post. *)
Lemma author_delete_removes_the_row_witness :
  ∃ db',
    respond (PostDeleteView 1 (request POST (LoggedIn testuser) "" "")) blog_db
    = (HttpResponseRedirect (Path "/"), db')
    ∧ posts db' !! 1 = None
    ∧ (∀ k, k ≠ 1 → posts db' !! k = posts blog_db !! k)
    ∧ S (size (posts db')) = size (posts blog_db)
    ∧ users db' = users blog_db.
Proof.
  apply (proj1 (author_delete_removes_the_row
                  (request POST (LoggedIn testuser) "" "") blog_db 1 test_post
                  testuser eq_refl eq_refl eq_refl)).
  left. reflexivity.
Defined.

Lemma missing_post_is_not_found_witness :
  let req := request POST (LoggedIn testuser) "Updated Post" "Text" in
  respond (PostUpdateView title_required 7 req) blog_db
  = (HttpResponseNotFound, blog_db)
  ∧ respond (PostDeleteView 7 req) blog_db = (HttpResponseNotFound, blog_db).
Proof.
  intros req.
  apply (missing_post_is_not_found title_required req blog_db 7 testuser).
  - reflexivity.
  - reflexivity.
Defined.

Lemma anonymous_is_sent_to_login_first_witness :
  let req := request POST AnonymousUser "Updated Post" "Text" in
  (respond (PostUpdateView title_required 1 req) blog_db
   = (HttpResponseRedirect LoginUrl, blog_db)
   ∧ respond (PostDeleteView 1 req) blog_db
     = (HttpResponseRedirect LoginUrl, blog_db))
  ∧ (respond (PostUpdateView title_required 7 req) blog_db
     = (HttpResponseRedirect LoginUrl, blog_db)
     ∧ respond (PostDeleteView 7 req) blog_db
       = (HttpResponseRedirect LoginUrl, blog_db)).
Proof.
  intros req. split.
  - apply (anonymous_is_sent_to_login_first title_required req blog_db 1).
    reflexivity.
  - apply (anonymous_is_sent_to_login_first title_required req blog_db 7).
    reflexivity.
Defined.

Lemma only_the_author_writes_witness :
  ∃ u p,
    user (request POST (LoggedIn testuser) "" "") = LoggedIn u
    ∧ posts blog_db !! 1 = Some p
    ∧ user_pk u = author p
    ∧ safe_method (method (request POST (LoggedIn testuser) "" "")) = false.
Proof.
  apply (only_the_author_writes title_required
           (request POST (LoggedIn testuser) "" "") blog_db 1).
  right. intros Hsame.
  apply (f_equal (fun d => posts d !! 1)) in Hsame.
  vm_compute in Hsame. discriminate Hsame.
Defined.

Lemma reads_never_write_witness :
  snd (respond (PostCreateView title_required 200
                  (request GET (LoggedIn testuser) "New Post" "Text"))
         blog_db) = blog_db
  ∧ snd (respond (PostUpdateView title_required 1
                    (request GET (LoggedIn testuser) "New Post" "Text"))
           blog_db) = blog_db
  ∧ snd (respond (PostDeleteView 1
                    (request GET (LoggedIn testuser) "New Post" "Text"))
           blog_db) = blog_db.
Proof.
  apply (reads_never_write title_required 200
           (request GET (LoggedIn testuser) "New Post" "Text") blog_db 1 None).
  reflexivity.
Defined.

Lemma rejected_form_writes_nothing_witness :
  let req := request POST (LoggedIn testuser) "" "Text" in
  snd (respond (PostCreateView title_required 200 req) blog_db) = blog_db
  ∧ snd (respond (PostUpdateView title_required 1 req) blog_db) = blog_db
  ∧ fst (respond (PostUpdateView title_required 1 req) blog_db)
    = HttpResponse (PostFormErrors (Some 1) untitled_form).
Proof.
  intros req.
  destruct (rejected_form_writes_nothing title_required 200 req blog_db 1
              eq_refl) as (Hc & Hu & Hpage).
  split; [exact Hc|]. split; [exact Hu|].
  destruct (Hpage testuser eq_refl (or_introl eq_refl)) as [_ Hback].
  exact (Hback test_post eq_refl eq_refl).
Defined.

Lemma created_post_is_readable_witness :
  ∃ pk db',
    respond (PostCreateView title_required 200
               (request POST (LoggedIn testuser) "New Post" "New Post Content"))
      blog_db
    = (HttpResponseRedirect (AbsoluteUrl pk), db')
    ∧ respond (PostDetailView pk (request GET AnonymousUser "" "")) db'
      = (HttpResponse
           (PostDetail pk
              {| title := "New Post"; content := "New Post Content";
                 date_posted := 200; author := 1 |}), db')
    ∧ size (posts db') = 2.
Proof.
  destruct (created_post_is_readable title_required 200
              (request POST (LoggedIn testuser) "New Post" "New Post Content")
              blog_db testuser new_post_form
              (request GET AnonymousUser "" "")
              eq_refl (or_introl eq_refl) eq_refl (or_introl eq_refl))
    as (pk & db' & Hcreate & Hdetail & _ & _ & Hsize).
  exists pk, db'. split; [exact Hcreate|]. split; [exact Hdetail|].
  exact Hsize.
Defined.

Lemma repeated_edit_changes_nothing_more_witness :
  let req := request POST (LoggedIn testuser)
               "Updated Post" "Updated Post Content" in
  let db1 := snd (respond (PostUpdateView title_required 1 req) blog_db) in
  respond (PostUpdateView title_required 1 req) db1
  = (HttpResponseRedirect (AbsoluteUrl 1), db1).
Proof.
  intros req.
  apply (repeated_edit_changes_nothing_more title_required req blog_db 1
           test_post testuser updated_post_form).
  - reflexivity.
  - reflexivity.
  - reflexivity.
  - left. reflexivity.
  - reflexivity.
Defined.


Lemma update_never_transfers_ownership_witness :
  let db1 := snd (respond (PostUpdateView title_required 1
                             (request POST (LoggedIn testuser) "Updated Post"
                                "Updated Post Content")) blog_db) in
  let req2 := request POST (LoggedIn anotheruser) "Mine now" "Text" in
  respond (PostUpdateView title_required 1 req2) db1
  = (HttpResponseForbidden, db1)
  ∧ respond (PostDeleteView 1 req2) db1 = (HttpResponseForbidden, db1).
Proof.
  intros db1 req2.
  apply (update_never_transfers_ownership title_required
           (request POST (LoggedIn testuser) "Updated Post"
              "Updated Post Content") 1 req2 blog_db 1 test_post anotheruser).
  - reflexivity.
  - reflexivity.
  - simpl. lia.
Defined.

Lemma list_views_follow_the_page_argument_witness :
  page_argument_rule PostListView
    (at_page 3 (request GET AnonymousUser "" "")) nine_posts_db
    (order_by_date_desc (map_to_list (posts nine_posts_db))).
Proof.
  apply (proj1 (list_views_follow_the_page_argument
                  (at_page 3 (request GET AnonymousUser "" "")) nine_posts_db
                  (or_introl eq_refl))).
Defined.

Lemma empty_listing_is_a_page_witness :
  respond (PostListView (request GET AnonymousUser "" "")) empty_blog_db
  = (HttpResponse (PostList [] (Some (1, 1)%Z)), empty_blog_db)
  ∧ respond (UserPostListView (Some "anotheruser"%string)
               (request GET AnonymousUser "" "")) blog_db
    = (HttpResponse (PostList [] (Some (1, 1)%Z)), blog_db).
Proof.
  split.
  - apply (proj1 (empty_listing_is_a_page (request GET AnonymousUser "" "")
                    empty_blog_db (or_introl eq_refl) (or_introl eq_refl))).
    reflexivity.
  - apply (proj2 (empty_listing_is_a_page (request GET AnonymousUser "" "")
                    blog_db (or_introl eq_refl) (or_introl eq_refl))
             "anotheruser"%string anotheruser eq_refl).
    intros pk p Hp.
    change (posts blog_db) with ({[1 := test_post]} : gmap nat Post) in Hp.
    apply lookup_singleton_Some in Hp as [_ <-].
    simpl. lia.
Defined.

Lemma read_views_refuse_other_methods_witness :
  let req := request POST AnonymousUser "New Post" "Text" in
  respond (PostListView req) blog_db = (HttpResponseNotAllowed, blog_db)
  ∧ respond (UserPostListView (Some "nobody"%string) req) blog_db
    = (HttpResponseNotAllowed, blog_db)
  ∧ respond (PostDetailView 7 req) blog_db = (HttpResponseNotAllowed, blog_db).
Proof.
  intros req.
  apply (read_views_refuse_other_methods req blog_db (Some "nobody"%string) 7);
    discriminate.
Defined.

(** ** No server errors *)

Lemma filter_unique_username name (us : list User) :
  NoDup (username <$> us) →
  length (List.filter (fun v => String.eqb (username v) name) us) ≤ 1.
Proof.
  induction us as [|u us IH]; intros Hnd; simpl; [lia|].
  apply NoDup_cons in Hnd as [Hnotin Hnd].
  destruct (String.eqb_spec (username u) name) as [Heq | _]; [|by apply IH].
  rewrite filter_username_none; [simpl; lia|].
  intros v Hv Hname. apply Hnotin. rewrite Heq, <- Hname.
  by apply list_elem_of_fmap_2.
Qed.

Section NoServerError.
Variable full_clean : PostForm -> option PostForm.

(** X20: the create, update and delete views never end in a server
    error: behind the login check the hook always has a user to assign,
    so the row it saves has an author.  The hook on its own, given an
    anonymous request, raises instead of saving. *)
Theorem guarded_views_never_fail now req db pk :
  fst (respond (PostCreateView full_clean now req) db)
  ≠ HttpResponseServerError
  ∧ fst (respond (PostUpdateView full_clean pk req) db)
    ≠ HttpResponseServerError
  ∧ fst (respond (PostDeleteView pk req) db) ≠ HttpResponseServerError
  ∧ (user req = AnonymousUser →
       ∀ inst,
         PostCreateView_form_valid req inst db = (inl ValueError, db)
         ∧ PostUpdateView_form_valid req inst db = (inl ValueError, db)).
Proof.
  rewrite PostCreateView_table, PostUpdateView_table, PostDeleteView_table.
  split; [|split; [|split]].
  - destruct (user req); [done|].
    destruct (method req); try done;
      by destruct (full_clean (POST_data req)).
  - destruct (user req) as [|u]; [done|].
    destruct (posts db !! pk) as [p|]; [|done].
    destruct (Nat.eqb (user_pk u) (author p)); [|done].
    destruct (method req); try done;
      by destruct (full_clean (POST_data req)).
  - destruct (user req) as [|u]; [done|].
    destruct (posts db !! pk) as [p|]; [|done].
    destruct (Nat.eqb (user_pk u) (author p)); [|done].
    by destruct (method req).
  - intros Hu inst.
    unfold PostCreateView_form_valid, PostUpdateView_form_valid, set_author,
      bind, raise.
    by rewrite Hu.
Qed.

End NoServerError.

(** X21: as long as no two users share a name, the per-user list view
    never ends in a server error: the name resolves to one user or to
    none, and the answer is a page, 404, 405 or the OPTIONS answer. *)
Theorem unique_usernames_never_fail req db kw :
  NoDup (username <$> users db) →
  fst (respond (UserPostListView kw req) db) ≠ HttpResponseServerError.
Proof.
  intros Hnd.
  unfold respond, UserPostListView, ListView, View_dispatch.
  assert (Hq : UserPostListView_get_queryset kw db = (inl Http404, db)
               ∨ ∃ qs, UserPostListView_get_queryset kw db = (inr qs, db)).
  { unfold UserPostListView_get_queryset, get_user_or_404, bind, get_db.
    destruct kw as [name|]; [|by left].
    pose proof (filter_unique_username name (users db) Hnd) as Hlen.
    destruct (List.filter _ (users db)) as [|u [|u' rest]];
      [by left | right; by eexists | simpl in Hlen; lia]. }
  destruct (method req); simpl; try done;
    unfold ListView_get, bind;
    (destruct Hq as [-> | [qs ->]]; [done|]);
    destruct (paginate_queryset_outcome qs (page req) db)
      as [-> | (n & _ & ->)]; done.
Qed.

Lemma guarded_views_never_fail_witness :
  PostCreateView_form_valid
    (request POST AnonymousUser "New Post" "Text") (new_instance 200) blog_db
  = (inl ValueError, blog_db)
  ∧ PostUpdateView_form_valid
      (request POST AnonymousUser "New Post" "Text") (new_instance 200) blog_db
    = (inl ValueError, blog_db).
Proof.
  apply (proj2 (proj2 (proj2 (guarded_views_never_fail title_required 200
                  (request POST AnonymousUser "New Post" "Text") blog_db 1)))
           eq_refl (new_instance 200)).
Defined.

Lemma unique_usernames_never_fail_witness :
  fst (respond (UserPostListView (Some "testuser"%string)
                  (request GET AnonymousUser "" "")) blog_db)
  ≠ HttpResponseServerError.
Proof.
  apply (unique_usernames_never_fail (request GET AnonymousUser "" "")
           blog_db (Some "testuser"%string)).
  apply (bool_decide_unpack _). vm_compute. exact I.
Defined.

(** ** The pages the list views answer *)

Lemma ListView_failing_queryset req get_queryset e db :
  method req = GET ∨ method req = HEAD →
  get_queryset db = (inl e, db) →
  respond (ListView req get_queryset paginate_by) db = (exn_response e, db).
Proof.
  intros Hm Hq. unfold respond, ListView, View_dispatch.
  destruct Hm as [-> | ->]; simpl; unfold ListView_get, bind; by rewrite Hq.
Qed.

Lemma ListView_page_answer req get_queryset qs db n l pg :
  method req = GET ∨ method req = HEAD →
  get_queryset db = (inr qs, db) →
  respond (ListView (at_page n req) get_queryset paginate_by) db
  = (HttpResponse (PostList l pg), db) →
  (1 <= n <= num_pages paginate_by qs)%Z ∧ l = nth_page n qs.
Proof.
  intros Hm Hq Hl.
  pose proof (ListView_page_argument (at_page n req) get_queryset qs db
                Hm Hq) as Hrule.
  unfold page_argument_rule in Hrule. simpl in Hrule.
  case_decide as Hn; rewrite Hrule in Hl; [|done].
  by injection Hl as <- _.
Qed.

Lemma UserPostListView_queryset_cases kw db :
  (∃ e, UserPostListView_get_queryset kw db = (inl e, db))
  ∨ (∃ u, UserPostListView_get_queryset kw db
          = (inr (order_by_date_desc
                    (filter_author u (map_to_list (posts db)))), db)).
Proof.
  unfold UserPostListView_get_queryset, get_user_or_404, bind, get_db.
  destruct kw as [name|]; [|left; by eexists].
  destruct (List.filter _ (users db)) as [|u [|u' rest]];
    [left | right | left]; by eexists.
Qed.

Lemma all_pages_ListView req get_queryset qs db :
  method req = GET ∨ method req = HEAD →
  get_queryset db = (inr qs, db) →
  all_pages (fun r => ListView r get_queryset paginate_by) req db = qs.
Proof.
  intros Hm Hq. pose proof (num_pages_pos qs) as Hpos.
  pose proof (num_pages_bounds qs) as Hb.
  unfold all_pages, answer_for_page.
  rewrite (ListView_at_page req get_queryset qs db 1 Hm Hq) by lia.
  simpl reported_pages.
  rewrite (List.map_ext_in _ (fun i => take 8 (drop (8 * i) qs))).
  - rewrite concat_chunks. apply take_ge. lia.
  - intros i Hi. apply in_seq in Hi.
    rewrite (ListView_at_page req get_queryset qs db (Z.of_nat i + 1) Hm Hq)
      by lia.
    simpl. apply nth_page_of_nat.
Qed.

Lemma all_pages_failing_queryset req get_queryset e db :
  method req = GET ∨ method req = HEAD →
  get_queryset db = (inl e, db) →
  all_pages (fun r => ListView r get_queryset paginate_by) req db = [].
Proof.
  intros Hm Hq. unfold all_pages, answer_for_page.
  rewrite (ListView_failing_queryset (at_page 1 req) get_queryset e db Hm Hq).
  by destruct e.
Qed.

Lemma ListView_page_sizes req get_queryset qs db :
  method req = GET ∨ method req = HEAD →
  get_queryset db = (inr qs, db) →
  page_size_rule (fun r => ListView r get_queryset paginate_by) req db
    (length qs).
Proof.
  intros Hm Hq. pose proof (num_pages_bounds qs) as Hb.
  exists (num_pages paginate_by qs). split; [done|].
  intros n Hn. exists (nth_page n qs).
  split; [by apply ListView_at_page|].
  assert (Hlen : length (nth_page n qs)
                 = min 8 (length qs - 8 * Z.to_nat (n - 1))).
  { unfold nth_page. rewrite page_size_is_eight, length_take, length_drop.
    unfold paginate_by. do 2 f_equal. lia. }
  rewrite Hlen. split; [|split]; lia.
Qed.

Lemma ListView_pages_in_order req get_queryset db :
  method req = GET ∨ method req = HEAD →
  (∃ e, get_queryset db = (inl e, db))
  ∨ (∃ qs, get_queryset db = (inr qs, db) ∧ StronglySorted newer_first qs) →
  pages_in_order (fun r => ListView r get_queryset paginate_by) req db.
Proof.
  intros Hm [[e He] | (qs & Hq & Hsorted)] n m l1 l2 pg1 pg2 x y Hnm H1 H2 Hx Hy.
  - rewrite (ListView_failing_queryset (at_page n req) get_queryset e db
               Hm He) in H1.
    by destruct e.
  - apply (ListView_page_answer req get_queryset qs db) in H1 as [Hn ->];
      [|done..].
    apply (ListView_page_answer req get_queryset qs db) in H2 as [Hk ->];
      [|done..].
    apply nth_page_lookup in Hx as (i & Hi & Hir); [|lia].
    apply nth_page_lookup in Hy as (j & Hj & Hjr); [|lia].
    apply (StronglySorted_lookup_lt newer_first qs i j); [done | lia | done..].
Qed.

(** X13: the pages the list view answers, from page 1 to the last page
    it reports, laid end to end, are its ordered queryset: all posts of
    the table, newest first, none lost and none repeated; for the
    per-user view, the posts of that user. *)
Theorem pages_cover_the_queryset req db :
  method req = GET ∨ method req = HEAD →
  all_pages PostListView req db
  = order_by_date_desc (map_to_list (posts db))
  ∧ all_pages PostListView req db ≡ₚ map_to_list (posts db)
  ∧ ∀ name u,
      List.filter (fun v => String.eqb (username v) name) (users db) = [u] →
      all_pages (UserPostListView (Some name)) req db
      = order_by_date_desc (filter_author u (map_to_list (posts db))).
Proof.
  intros Hm.
  assert (Hall : all_pages PostListView req db
                 = order_by_date_desc (map_to_list (posts db))).
  { apply (all_pages_ListView req PostListView_get_queryset); [done|].
    apply PostListView_queryset. }
  split; [done|]. split.
  - rewrite Hall. apply ordered_is_perm.
  - intros name u Hf.
    apply (all_pages_ListView req (UserPostListView_get_queryset (Some name)));
      [done|].
    by apply UserPostListView_queryset.
Qed.

(** X14: the list view reports as many pages as there are posts divided
    by eight, rounded up (one page when there is none); every page
    before the last lists exactly eight rows and the last page lists the
    rest, at least one row when there is any post.  The same holds for
    the per-user view over the posts of that user. *)
Theorem page_sizes req db :
  method req = GET ∨ method req = HEAD →
  page_size_rule PostListView req db (size (posts db))
  ∧ ∀ name u,
      List.filter (fun v => String.eqb (username v) name) (users db) = [u] →
      page_size_rule (UserPostListView (Some name)) req db
        (length (filter_author u (map_to_list (posts db)))).
Proof.
  intros Hm. split.
  - rewrite <- length_map_to_list.
    rewrite <- (Permutation_length (ordered_is_perm (map_to_list (posts db)))).
    apply (ListView_page_sizes req PostListView_get_queryset); [done|].
    apply PostListView_queryset.
  - intros name u Hf.
    rewrite <- (Permutation_length
                  (ordered_is_perm
                     (filter_author u (map_to_list (posts db))))).
    apply (ListView_page_sizes req
             (UserPostListView_get_queryset (Some name))); [done|].
    by apply UserPostListView_queryset.
Qed.

(** X15: the newest-first order continues across the pages the list
    views answer: a row listed on one page is at least as new as any row
    listed on a later page. *)
Theorem earlier_pages_are_newer req db :
  method req = GET ∨ method req = HEAD →
  pages_in_order PostListView req db
  ∧ ∀ kw, pages_in_order (UserPostListView kw) req db.
Proof.
  intros Hm. split.
  - apply (ListView_pages_in_order req PostListView_get_queryset); [done|].
    right. eexists. split; [apply PostListView_queryset|].
    apply ordered_is_sorted.
  - intros kw.
    apply (ListView_pages_in_order req (UserPostListView_get_queryset kw));
      [done|].
    destruct (UserPostListView_queryset_cases kw db) as [[e He] | [u Hu]].
    + left. by exists e.
    + right. eexists. split; [exact Hu | apply ordered_is_sorted].
Qed.

(** X18: no post is listed twice: over all the pages the list view
    answers, and over all the pages the per-user view answers, the
    primary keys are pairwise distinct. *)
Theorem listing_has_no_duplicates req db :
  method req = GET ∨ method req = HEAD →
  NoDup (fst <$> all_pages PostListView req db)
  ∧ ∀ kw, NoDup (fst <$> all_pages (UserPostListView kw) req db).
Proof.
  intros Hm. split.
  - assert (Hall : all_pages PostListView req db
                   = order_by_date_desc (map_to_list (posts db))).
    { apply (all_pages_ListView req PostListView_get_queryset); [done|].
      apply PostListView_queryset. }
    rewrite Hall, (ordered_is_perm (map_to_list (posts db))).
    apply NoDup_fst_map_to_list.
  - intros kw.
    destruct (UserPostListView_queryset_cases kw db) as [[e He] | [u Hu]].
    + assert (Hnone : all_pages (UserPostListView kw) req db = []).
      { by apply (all_pages_failing_queryset req
                    (UserPostListView_get_queryset kw) e). }
      rewrite Hnone. constructor.
    + assert (Hby : all_pages (UserPostListView kw) req db
                    = order_by_date_desc
                        (filter_author u (map_to_list (posts db)))).
      { by apply (all_pages_ListView req (UserPostListView_get_queryset kw)). }
      rewrite Hby,
        (ordered_is_perm (filter_author u (map_to_list (posts db)))).
      apply (sublist_NoDup _ (fst <$> map_to_list (posts db)));
        [apply NoDup_fst_map_to_list | apply fmap_sublist, filter_sublist].
Qed.

Section CreateThenDelete.
Variable full_clean : PostForm -> option PostForm.

(** X9: deleting a post that was just created, at the key the create
    view redirected to (the creator's POST or DELETE to the delete
    view), leaves the stored posts and the users as they were before the
    two requests. *)
Theorem create_then_delete_restores now req req' db u c pk db1 :
  user req = LoggedIn u →
  method req = POST ∨ method req = PUT →
  full_clean (POST_data req) = Some c →
  respond (PostCreateView full_clean now req) db
  = (HttpResponseRedirect (AbsoluteUrl pk), db1) →
  user req' = LoggedIn u →
  method req' = POST ∨ method req' = DELETE →
  ∃ db2,
    respond (PostDeleteView pk req') db1
    = (HttpResponseRedirect (Path "/"), db2)
    ∧ posts db2 = posts db
    ∧ users db2 = users db.
Proof.
  intros Hu Hm Hc Hcreate Hu' Hm'.
  assert (Hfresh : posts db !! fresh (dom (posts db)) = None)
    by apply not_elem_of_dom, is_fresh.
  rewrite PostCreateView_table, Hu in Hcreate.
  assert (Hrun : (HttpResponseRedirect (AbsoluteUrl (fresh (dom (posts db)))),
                  {| posts :=
                       <[fresh (dom (posts db)) :=
                           {| title := form_title c; content := form_content c;
                              date_posted := now; author := user_pk u |}]>
                         (posts db);
                     users := users db |})
                 = (HttpResponseRedirect (AbsoluteUrl pk), db1)).
  { destruct Hm as [Hp | Hp]; rewrite Hp, Hc in Hcreate; exact Hcreate. }
  injection Hrun as <- <-.
  rewrite PostDeleteView_table, Hu'. simpl.
  rewrite lookup_insert_eq. simpl. rewrite Nat.eqb_refl.
  eexists. split.
  { destruct Hm' as [-> | ->]; reflexivity. }
  simpl. split; [by apply delete_insert_id | done].
Qed.

End CreateThenDelete.

(** Nine posts by [testuser]. *)
Lemma pages_cover_the_queryset_witness :
  all_pages PostListView (request GET AnonymousUser "" "") nine_posts_db
  = order_by_date_desc (map_to_list (posts nine_posts_db))
  ∧ all_pages (UserPostListView (Some "testuser"%string))
      (request GET AnonymousUser "" "") nine_posts_db
    = order_by_date_desc
        (filter_author testuser (map_to_list (posts nine_posts_db))).
Proof.
  destruct (pages_cover_the_queryset (request GET AnonymousUser "" "")
              nine_posts_db (or_introl eq_refl)) as (Hall & _ & Hby).
  split; [exact Hall|].
  apply (Hby "testuser"%string testuser). reflexivity.
Defined.

Lemma page_sizes_witness :
  page_size_rule PostListView (request GET AnonymousUser "" "")
    nine_posts_db (size (posts nine_posts_db)).
Proof.
  apply (proj1 (page_sizes (request GET AnonymousUser "" "") nine_posts_db
                  (or_introl eq_refl))).
Defined.

Lemma earlier_pages_are_newer_witness :
  (date_posted (snd (nth_post 1)) <= date_posted (snd (nth_post 9)))%Z.
Proof.
  apply (proj1 (earlier_pages_are_newer (request GET AnonymousUser "" "")
                  nine_posts_db (or_introl eq_refl))
           1%Z 2%Z
           (nth_page 1 (order_by_date_desc
                          (map_to_list (posts nine_posts_db))))
           (nth_page 2 (order_by_date_desc
                          (map_to_list (posts nine_posts_db))))
           (Some (1, 2)%Z) (Some (2, 2)%Z) (nth_post 9) (nth_post 1)).
  - lia.
  - vm_compute. reflexivity.
  - vm_compute. reflexivity.
  - apply (list_elem_of_lookup_2 _ 0). reflexivity.
  - apply (list_elem_of_lookup_2 _ 0). reflexivity.
Defined.

Lemma listing_has_no_duplicates_witness :
  NoDup (fst <$> all_pages PostListView (request GET AnonymousUser "" "")
                   nine_posts_db).
Proof.
  apply (proj1 (listing_has_no_duplicates (request GET AnonymousUser "" "")
                  nine_posts_db (or_introl eq_refl))).
Defined.

(** [testuser] creates a post and deletes it again. *)
Lemma create_then_delete_restores_witness :
  ∃ db2,
    respond (PostDeleteView (fresh (dom (posts blog_db)))
               (request POST (LoggedIn testuser) "" ""))
      (snd (respond (PostCreateView title_required 200
                       (request POST (LoggedIn testuser) "New Post"
                          "New Post Content")) blog_db))
    = (HttpResponseRedirect (Path "/"), db2)
    ∧ posts db2 = posts blog_db
    ∧ users db2 = users blog_db.
Proof.
  apply (create_then_delete_restores title_required 200
           (request POST (LoggedIn testuser) "New Post" "New Post Content")
           (request POST (LoggedIn testuser) "" "")
           blog_db testuser new_post_form).
  - reflexivity.
  - left. reflexivity.
  - reflexivity.
  - reflexivity.
  - reflexivity.
  - left. reflexivity.
Defined.
